(** * strapi-migrator: a shallow embedding of [migrate.py]

    The script moves the entries of one content model from a Strapi 3
    instance to a Strapi 4 instance.  It is one sequential pipeline of HTTP
    calls, so the embedding is a state-and-exception monad over

    - the remote world (both servers), reached only through one oracle
      [http_send], and
    - what the process leaves behind: the requests it issued, the lines it
      printed, and the files in its working directory.

    JSON documents are the values Python's [json] decoder builds; the
    dictionaries keep insertion order, as Python's do. *)

From Stdlib Require Import List String Ascii ZArith Bool Lia Arith.
Import ListNotations.
Local Open Scope string_scope.
Local Open Scope Z_scope.
Set Warnings "-register-all".

(* ================================================================= *)
(** ** Python values *)

(** What [response.json()] can return.  JSON numbers are kept to the
    integers; no function of the script does arithmetic on entry data. *)
Inductive pyvalue : Type :=
| VNone
| VBool (b : bool)
| VInt (z : Z)
| VStr (s : string)
| VList (l : list pyvalue)
| VDict (d : list (string * pyvalue)).

(** A [dict]: keys in insertion order.  A Python dict never holds a key
    twice, which is the invariant [wf_dict]. *)
Definition dict := list (string * pyvalue).

Definition keys (d : dict) : list string := map fst d.

Definition wf_dict (d : dict) : Prop := NoDup (keys d).

(** [d.get(k)] as an option. *)
Fixpoint dict_get (d : dict) (k : string) : option pyvalue :=
  match d with
  | [] => None
  | (k', v) :: rest => if String.eqb k k' then Some v else dict_get rest k
  end.

(** [d.get(k)], with Python's default [None]. *)
Definition dict_get_none (d : dict) (k : string) : pyvalue :=
  match dict_get d k with
  | Some v => v
  | None => VNone
  end.

(** [k in d]. *)
Definition dict_mem (d : dict) (k : string) : bool :=
  match dict_get d k with
  | Some _ => true
  | None => false
  end.

(** [d[k] = v]: an existing key keeps its place, a new key goes last. *)
Fixpoint dict_set (d : dict) (k : string) (v : pyvalue) : dict :=
  match d with
  | [] => [(k, v)]
  | (k', v') :: rest =>
      if String.eqb k k' then (k', v) :: rest
      else (k', v') :: dict_set rest k v
  end.

(** [d.pop(k, None)], the result dropped. *)
Fixpoint dict_pop (d : dict) (k : string) : dict :=
  match d with
  | [] => []
  | (k', v') :: rest =>
      if String.eqb k k' then rest else (k', v') :: dict_pop rest k
  end.

(** Python truthiness, as [if x:] and [and] test it. *)
Definition truthy (v : pyvalue) : bool :=
  match v with
  | VNone => false
  | VBool b => b
  | VInt z => negb (z =? 0)
  | VStr s => negb (String.eqb s "")
  | VList l => match l with [] => false | _ => true end
  | VDict d => match d with [] => false | _ => true end
  end.

(** [x in names] for a list of strings. *)
Definition str_in (x : string) (names : list string) : bool :=
  existsb (String.eqb x) names.

(** [s.split(c)] for a one-character separator: never an empty list. *)
Fixpoint split_on (c : ascii) (s : string) : list string :=
  match s with
  | EmptyString => [EmptyString]
  | String a rest =>
      let r := split_on c rest in
      if Ascii.eqb a c then EmptyString :: r
      else match r with
           | x :: xs => String a x :: xs
           | [] => [String a EmptyString]
           end
  end.

(** [needle in s] for two strings: substring search. *)
Fixpoint str_contains (needle s : string) : bool :=
  if String.prefix needle s then true
  else match s with
       | EmptyString => false
       | String _ rest => str_contains needle rest
       end.

(** [f"{x}"] of an environment value: an unset variable prints as [None]. *)
Definition fstr (x : option string) : string :=
  match x with
  | Some s => s
  | None => "None"
  end.

(** An environment value as JSON: an unset variable is [null]. *)
Definition env_json (x : option string) : pyvalue :=
  match x with
  | Some s => VStr s
  | None => VNone
  end.

(* ================================================================= *)
(** ** Exceptions, requests, responses *)

Inductive exn : Type :=
| HTTPError                  (* [raise_for_status] on a 4xx or 5xx answer *)
| RequestException           (* the transport itself failed *)
| JSONDecodeError            (* [response.json()] on a body that is not JSON *)
| KeyError
| IndexError
| TypeError
| FileNotFoundError
| ValueError (old_id : pyvalue) (* the resolver found no related entity *)
| IsADirectoryError.

(** How a computation ends.  [OutOfFuel] is not a Python outcome: it marks
    a run of the pagination loop that the model cut short. *)
Inductive res (A : Type) : Type :=
| Ok (a : A)
| Raise (e : exn)
| OutOfFuel.
Arguments Ok {A} a.
Arguments Raise {A} e.
Arguments OutOfFuel {A}.

(** One constructor per [requests] call of the script. *)
Inductive request : Type :=
| PostLogin (url : string) (email password : pyvalue)
| GetMediaFile (media_url : string)
| PostUpload (url auth file_name content : string)
| GetRelated (url auth : string) (old_id : pyvalue)
| GetPage (url : string) (token : pyvalue) (limit start : Z)
| PostCreate (url auth : string) (data : pyvalue).

Record response : Type := mkResponse {
  status_code : Z;
  text : string;              (* the body as sent *)
  json : option pyvalue         (* the body decoded, when it is JSON *)
}.

(** What the script prints. *)
Inductive message : Type :=
| MsgAuthenticating
| MsgFetchingEntries (model : option string)
| MsgFetchingPage (page : Z)
| MsgFetched (count : nat)
| MsgCreating
| MsgFailed (entry : pyvalue)
| MsgResponse (body : string)
| MsgSuccess (entry : pyvalue)
| MsgComplete.

(** The outside of the process: the two servers and Python's [urljoin].
    [http_send] answers a request once the headers are in.  The body of an
    answer that is read as a stream arrives afterwards, and
    [body_arrives] tells how: [None] when all of it comes, [Some n] when
    the connection breaks after [n] bytes. *)
Class Platform (World : Type) : Type := {
  http_send : request -> World -> option response * World;
  body_arrives : request -> World -> option nat;
  urljoin : option string -> string -> string
}.

(** The process and the world it talks to. *)
Record state (World : Type) : Type := mkState {
  world : World;
  log : list request;              (* requests issued, oldest first *)
  out : list message;              (* lines printed, oldest first *)
  files : list (string * string)   (* working directory: name, content *)
}.
Arguments mkState {World}.
Arguments world {World}.
Arguments log {World}.
Arguments out {World}.
Arguments files {World}.

Definition M (World A : Type) : Type := state World -> res A * state World.

Definition ret {World A} (a : A) : M World A := fun s => (Ok a, s).

Definition raise {World A} (e : exn) : M World A := fun s => (Raise e, s).

Definition bind {World A B} (m : M World A) (k : A -> M World B) : M World B :=
  fun s =>
    match m s with
    | (Ok a, s') => k a s'
    | (Raise e, s') => (Raise e, s')
    | (OutOfFuel, s') => (OutOfFuel, s')
    end.

Notation "x <- m ;; k" := (bind m (fun x => k))
  (at level 61, m at next level, right associativity).
Notation "m ;;; k" := (bind m (fun _ => k))
  (at level 61, right associativity).

(** Lift a pure step that may raise. *)
Definition lift {World A} (r : res A) : M World A := fun s => (r, s).

(* ================================================================= *)
(** ** Subscripts and iteration on JSON values *)

(** [v[k]] for a string key [k]. *)
Definition getitem (v : pyvalue) (k : string) : res pyvalue :=
  match v with
  | VDict d =>
      match dict_get d k with
      | Some x => Ok x
      | None => Raise KeyError
      end
  | _ => Raise TypeError
  end.

(** [v[0]].  A decoded JSON object has string keys only, so [0] is never
    one of them. *)
Definition getitem0 (v : pyvalue) : res pyvalue :=
  match v with
  | VList (x :: _) => Ok x
  | VList [] => Raise IndexError
  | VStr (String c _) => Ok (VStr (String c EmptyString))
  | VStr EmptyString => Raise IndexError
  | VDict _ => Raise KeyError
  | _ => Raise TypeError
  end.

(** The elements [entries.extend(v)] appends. *)
Definition py_iter (v : pyvalue) : res (list pyvalue) :=
  match v with
  | VList l => Ok l
  | VDict d => Ok (map VStr (keys d))
  | VStr s => Ok (map (fun c => VStr (String c EmptyString)) (list_ascii_of_string s))
  | _ => Raise TypeError
  end.

(** ["id" in v] *)
Definition contains_id (v : pyvalue) : res bool :=
  match v with
  | VDict d => Ok (dict_mem d "id")
  | VList l =>
      Ok (existsb (fun x => match x with
                            | VStr s => String.eqb s "id"
                            | _ => false
                            end) l)
  | VStr s => Ok (str_contains "id" s)
  | _ => Raise TypeError
  end.

(** [all("id" in v for v in value)]: stops at the first [False], raises at
    the first element that has no [in]. *)
Fixpoint all_contain_id (value : list pyvalue) : res bool :=
  match value with
  | [] => Ok true
  | v :: rest =>
      match contains_id v with
      | Ok true => all_contain_id rest
      | r => r
      end
  end.

(** [isinstance(item, dict) and item.get("url")], as a truth value. *)
Definition is_media (item : pyvalue) : bool :=
  match item with
  | VDict d => truthy (dict_get_none d "url")
  | _ => false
  end.

Definition is_dict (item : pyvalue) : bool :=
  match item with
  | VDict _ => true
  | _ => false
  end.

(** [{"connect": [{"id": rid} for rid in related_ids]}] *)
Definition connect (related_ids : list pyvalue) : pyvalue :=
  VDict [("connect", VList (map (fun rid => VDict [("id", rid)]) related_ids))].

(* ================================================================= *)
(** ** Configuration *)

Record config : Type := mkConfig {
  STRAPI_3_BASE_URL : option string;
  STRAPI_4_BASE_URL : option string;
  STRAPI_4_API_KEY : option string;
  STRAPI_3_EMAIL : option string;
  STRAPI_3_PASSWORD : option string;
  STRAPI_3_MODEL : option string;
  STRAPI_4_MODEL : option string;
  RELATIONSHIP_FIELDS : list string;
  BATCH_SIZE : Z
}.

(** [os.getenv(name, default)] on the value the environment holds. *)
Definition getenv_default (env_value : option string) (default : string) : string :=
  match env_value with
  | Some s => s
  | None => default
  end.

(** [os.getenv("RELATIONSHIP_FIELDS", "").split(",")] *)
Definition relationship_fields_of_env (env_value : option string) : list string :=
  split_on "," (getenv_default env_value "").

(** [HEADERS_4]: the one header the destination calls carry. *)
Definition HEADERS_4 (cfg : config) : string :=
  "Bearer " ++ fstr (STRAPI_4_API_KEY cfg).

(* ================================================================= *)
(** ** A small destination and source, to run the script on

    The world is the number of uploads so far: the destination numbers its
    media 101, 102, ...  Related entities with old id 9 and 7 exist (as 42
    and 40), no other does.  The source holds three entries.  A creation is
    answered 200, except that an entry titled [B] is answered 204 and one
    titled [C] is refused with 500. *)

Definition demo_entries : list pyvalue :=
  [ VDict [("id", VInt 5); ("title", VStr "A"); ("created_at", VStr "2020")];
    VDict [("id", VInt 6); ("title", VStr "B"); ("updated_at", VStr "2021")];
    VDict [("id", VInt 8); ("title", VStr "C")] ].

Definition demo_page (src : list pyvalue) (limit start : Z) : list pyvalue :=
  firstn (Z.to_nat limit) (skipn (Z.to_nat start) src).

Definition demo_related (old_id : pyvalue) : list pyvalue :=
  match old_id with
  | VInt 9 => [VDict [("id", VInt 42)]; VDict [("id", VInt 43)]]
  | VInt 7 => [VDict [("id", VInt 40)]]
  | _ => []
  end.

Definition demo_create_status (data : pyvalue) : Z :=
  match getitem data "data" with
  | Ok entry =>
      match getitem entry "title" with
      | Ok (VStr "B") => 204
      | Ok (VStr "C") => 500
      | _ => 200
      end
  | _ => 400
  end.

Definition demo_http (r : request) (uploads : nat) : option response * nat :=
  match r with
  | PostLogin _ _ _ =>
      (Some (mkResponse 200 "" (Some (VDict [("data", VDict [("token", VStr "jwt")])]))),
       uploads)
  | GetMediaFile _ => (Some (mkResponse 200 "bytes" None), uploads)
  | PostUpload _ _ _ _ =>
      (Some (mkResponse 200 ""
               (Some (VList [VDict [("id", VInt (101 + Z.of_nat uploads))]]))),
       S uploads)
  | GetRelated _ _ old_id =>
      (Some (mkResponse 200 "" (Some (VDict [("data", VList (demo_related old_id))]))),
       uploads)
  | GetPage _ _ limit start =>
      (Some (mkResponse 200 "" (Some (VList (demo_page demo_entries limit start)))),
       uploads)
  | PostCreate _ _ data =>
      (Some (mkResponse (demo_create_status data) "body" (Some VNone)), uploads)
  end.

(** [urljoin] for the bases of the demo, which are a scheme and a host
    with no path: an absolute reference stands for itself, a reference
    that starts at the root or names a file is put after the host.  With
    no base the reference is returned as it is. *)
Definition demo_urljoin (base : option string) (url : string) : string :=
  match base with
  | None | Some EmptyString => url
  | Some b =>
      if String.prefix "http://" url || String.prefix "https://" url then url
      else if String.prefix "/" url then b ++ url
      else b ++ "/" ++ url
  end.

#[export] Instance demo_platform : Platform nat := {
  http_send := demo_http;
  body_arrives := fun _ _ => None;
  urljoin := demo_urljoin
}.

Definition demo_config (fields : list string) : config :=
  mkConfig (Some "http://old") (Some "http://new") (Some "key")
           (Some "me@example.org") (Some "secret")
           (Some "articles") (Some "articles") fields 10.

Definition demo_start : state nat := mkState 0%nat [] [] [].

Definition demo_cover : pyvalue := VDict [("url", VStr "/img.png")].

Definition demo_gallery : list pyvalue :=
  [VDict [("url", VStr "/a/b.png")]; VDict [("url", VStr "/c.png")]].

Definition demo_media_entry : dict :=
  [("cover", demo_cover); ("gallery", VList demo_gallery)].

Definition demo_with_file : state nat := mkState 0%nat [] [] [("img.png", "bytes")].

Definition demo_mixed_entry : dict :=
  [("title", VStr "A");
   ("tags", VList [VDict [("id", VInt 7)]; VDict [("name", VStr "x")]])].

Definition demo_component_entry : dict :=
  [("seo", VDict [("image", demo_cover);
                  ("og", VDict [("picture", demo_cover)])]);
   ("blocks", VList [VDict [("photo", demo_cover)]; VDict [("text", VStr "t")]])].

Definition demo_related_entry : dict :=
  [("author", VDict [("id", VInt 9)]);
   ("editor", VDict [("id", VInt 7)]);
   ("tags", VList [VDict [("id", VInt 7)]; VDict [("id", VInt 9)]]);
   ("links", VList [])].

(* ================================================================= *)
(** ** The script *)

Section Program.

Context {World : Type} {platform : Platform World}.
Variable cfg : config.

Local Abbreviation M := (M World).

(** *** The process's own effects *)

(** Any [requests.get] or [requests.post]: the call is logged whether or
    not an answer comes back; no answer is a [RequestException]. *)
Definition send (r : request) : M response :=
  fun s =>
    let (answer, w) := http_send r (world s) in
    let s' := mkState w (log s ++ [r]) (out s) (files s) in
    match answer with
    | Some response => (Ok response, s')
    | None => (Raise RequestException, s')
    end.

Definition print (m : message) : M unit :=
  fun s => (Ok tt, mkState (world s) (log s) (out s ++ [m]) (files s)).

(** [response.raise_for_status()] *)
Definition raise_for_status (response : response) : M unit :=
  if (400 <=? status_code response) && (status_code response <? 600)
  then raise HTTPError
  else ret tt.

(** [response.json()] *)
Definition response_json (response : response) : M pyvalue :=
  match json response with
  | Some v => ret v
  | None => raise JSONDecodeError
  end.

Definition file_lookup (name : string) (fs : list (string * string)) : option string :=
  match find (fun f => String.eqb name (fst f)) fs with
  | Some f => Some (snd f)
  | None => None
  end.

Definition file_remove (name : string) (fs : list (string * string)) : list (string * string) :=
  filter (fun f => negb (String.eqb name (fst f))) fs.

(** The names every directory has for itself and its parent.  The working
    directory is taken to hold regular files besides, and the disk to take
    what is written. *)
Definition is_directory_name (name : string) : bool :=
  String.eqb name "." || String.eqb name "..".

(** [open(name, "wb")]: the file is there and empty from now on, unless
    the name is empty or that of a directory. *)
Definition open_file (name : string) : M unit :=
  fun s =>
    if String.eqb name "" then (Raise FileNotFoundError, s)
    else if is_directory_name name then (Raise IsADirectoryError, s)
    else (Ok tt, mkState (world s) (log s) (out s)
                         ((name, "") :: file_remove name (files s))).

(** [for chunk in response.iter_content(...): file.write(chunk)]: the body
    comes in pieces of no fixed size, each written as it comes; when the
    connection breaks the loop raises and the file keeps what came. *)
Definition write_chunks (name : string) (r : request) (response : response) : M unit :=
  fun s =>
    match body_arrives r (world s) with
    | None =>
        (Ok tt, mkState (world s) (log s) (out s)
                        ((name, text response) :: file_remove name (files s)))
    | Some n =>
        (Raise RequestException,
         mkState (world s) (log s) (out s)
                 ((name, substring 0 n (text response)) :: file_remove name (files s)))
    end.

(** [open(name, "rb")] *)
Definition read_file (name : string) : M string :=
  fun s =>
    match file_lookup name (files s) with
    | Some content => (Ok content, s)
    | None =>
        if is_directory_name name then (Raise IsADirectoryError, s)
        else (Raise FileNotFoundError, s)
    end.

(** [os.remove(name)] *)
Definition remove_file (name : string) : M unit :=
  fun s =>
    match file_lookup name (files s) with
    | Some _ => (Ok tt, mkState (world s) (log s) (out s) (file_remove name (files s)))
    | None => (Raise FileNotFoundError, s)
    end.

(** *** Source authentication *)

Definition get_strapi_3_token : M pyvalue :=
  response <- send (PostLogin (fstr (STRAPI_3_BASE_URL cfg) ++ "/admin/login")
                              (env_json (STRAPI_3_EMAIL cfg))
                              (env_json (STRAPI_3_PASSWORD cfg))) ;;
  raise_for_status response ;;;
  body <- response_json response ;;
  data <- lift (getitem body "data") ;;
  lift (getitem data "token").

(** *** Media Transfer *)

Definition download_media (media_url : string) : M string :=
  response <- send (GetMediaFile media_url) ;;
  raise_for_status response ;;;
  let file_name := last (split_on "/" media_url) "" in
  open_file file_name ;;;
  write_chunks file_name (GetMediaFile media_url) response ;;;
  ret file_name.

Definition upload_media_to_strapi_4 (file_path : string) : M pyvalue :=
  file <- read_file file_path ;;
  response <- send (PostUpload (fstr (STRAPI_4_BASE_URL cfg) ++ "/api/upload")
                               (HEADERS_4 cfg) file_path file) ;;
  raise_for_status response ;;;
  remove_file file_path ;;;
  body <- response_json response ;;
  lift (getitem0 body).

(** [urljoin(STRAPI_3_BASE_URL, url)] on a decoded [url].  A reference
    that is not a string never reaches the network: with a base,
    [urljoin] refuses to mix it with a string; without one, [urljoin]
    hands it back and [requests.get] finds no scheme in it. *)
Definition join_media_url (url : pyvalue) : res string :=
  match url with
  | VStr u => Ok (urljoin (STRAPI_3_BASE_URL cfg) u)
  | _ =>
      match STRAPI_3_BASE_URL cfg with
      | None | Some EmptyString => Raise RequestException
      | Some _ => Raise TypeError
      end
  end.

(** The four lines [handle_media_fields] runs on one media mapping, in
    both of its branches: resolve the address, download, upload, and take
    the identifier the destination gave. *)
Definition transfer_media (media_item : pyvalue) : M pyvalue :=
  url <- lift (getitem media_item "url") ;;
  media_url <- lift (join_media_url url) ;;
  file_path <- download_media media_url ;;
  uploaded_media <- upload_media_to_strapi_4 file_path ;;
  lift (getitem uploaded_media "id").

(** *** Relationship Resolver *)

Definition fetch_related_id_in_strapi_4 (model_name : string) (old_id : pyvalue) : M pyvalue :=
  response <- send (GetRelated (fstr (STRAPI_4_BASE_URL cfg) ++ "/api/" ++ model_name ++ "s")
                               (HEADERS_4 cfg) old_id) ;;
  raise_for_status response ;;;
  body <- response_json response ;;
  data <- lift (getitem body "data") ;;
  if truthy data then
    first <- lift (getitem0 data) ;;
    lift (getitem first "id")
  else raise (ValueError old_id).

(** *** Entry Transformer *)

(** [for field, value in entry.items(): body]: the keys are those the
    entry has when the loop starts (no body adds or removes one), the value
    is read when the field's turn comes. *)
Fixpoint for_items (body : dict -> string -> pyvalue -> M dict)
                   (fields : list string) (entry : dict) : M dict :=
  match fields with
  | [] => ret entry
  | field :: rest =>
      match dict_get entry field with
      | Some value =>
          entry' <- body entry field value ;;
          for_items body rest entry'
      | None => for_items body rest entry
      end
  end.

(** The loop over a media list: [media_ids] grows at its end. *)
Fixpoint media_ids_loop (value : list pyvalue) (media_ids : list pyvalue) : M (list pyvalue) :=
  match value with
  | [] => ret media_ids
  | media_item :: rest =>
      id <- transfer_media media_item ;;
      media_ids_loop rest (media_ids ++ [id])
  end.

Definition handle_media_field (entry : dict) (field : string) (value : pyvalue) : M dict :=
  match value with
  | VDict d =>
      if truthy (dict_get_none d "url") then
        id <- transfer_media value ;;
        ret (dict_set entry field id)
      else ret entry
  | VList items =>
      if forallb is_media items then
        media_ids <- media_ids_loop items [] ;;
        ret (dict_set entry field (VList media_ids))
      else ret entry
  | _ => ret entry
  end.

Definition handle_media_fields (entry : dict) : M dict :=
  for_items handle_media_field (keys entry) entry.

(** [[fetch_related_id_in_strapi_4(related_model, v["id"]) for v in value]] *)
Fixpoint related_ids_of (related_model : string) (value : list pyvalue) : M (list pyvalue) :=
  match value with
  | [] => ret []
  | v :: rest =>
      old_id <- lift (getitem v "id") ;;
      rid <- fetch_related_id_in_strapi_4 related_model old_id ;;
      rids <- related_ids_of related_model rest ;;
      ret (rid :: rids)
  end.

Definition map_relationships_field (entry : dict) (field : string) (value : pyvalue) : M dict :=
  if negb (str_in field (RELATIONSHIP_FIELDS cfg)) then ret entry
  else
    match value with
    | VDict d =>
        if dict_mem d "id" then
          old_id <- lift (getitem value "id") ;;
          related_id <- fetch_related_id_in_strapi_4 field old_id ;;
          ret (dict_set entry field (connect [related_id]))
        else ret entry
    | VList items =>
        every <- lift (all_contain_id items) ;;
        if every then
          related_ids <- related_ids_of field items ;;
          ret (dict_set entry field (connect related_ids))
        else ret entry
    | _ => ret entry
    end.

Definition map_relationships (entry : dict) : M dict :=
  for_items map_relationships_field (keys entry) entry.

(** Both passes on one component.  The script mutates the component where
    it sits; a decoded JSON tree shares nothing, so returning the new
    component to be put back in its place is the same thing. *)
Definition handle_component (component : pyvalue) : M pyvalue :=
  match component with
  | VDict d =>
      d1 <- handle_media_fields d ;;
      d2 <- map_relationships d1 ;;
      ret (VDict d2)
  | _ => ret component
  end.

Fixpoint components_loop (value : list pyvalue) : M (list pyvalue) :=
  match value with
  | [] => ret []
  | component :: rest =>
      component' <- handle_component component ;;
      rest' <- components_loop rest ;;
      ret (component' :: rest')
  end.

Definition handle_components_field (entry : dict) (field : string) (value : pyvalue) : M dict :=
  match value with
  | VList items =>
      if forallb is_dict items then
        items' <- components_loop items ;;
        ret (dict_set entry field (VList items'))
      else ret entry
  | VDict _ =>
      value' <- handle_component value ;;
      ret (dict_set entry field value')
  | _ => ret entry
  end.

(** The second argument is not used by the script either. *)
Definition handle_components (entry : dict) (token : string) : M dict :=
  for_items handle_components_field (keys entry) entry.

(** *** Fetch Stage *)

(** The [while True] loop, cut after [fuel] page requests. *)
Fixpoint fetch_loop (fuel : nat) (model_name : option string) (token : pyvalue)
                    (entries : list pyvalue) (page : Z) : M (list pyvalue) :=
  match fuel with
  | O => fun s => (OutOfFuel, s)
  | S fuel' =>
      response <- send (GetPage (fstr (STRAPI_3_BASE_URL cfg) ++ "/" ++ fstr model_name)
                                token (BATCH_SIZE cfg) ((page - 1) * BATCH_SIZE cfg)) ;;
      print (MsgFetchingPage page) ;;;
      raise_for_status response ;;;
      data <- response_json response ;;
      if negb (truthy data) then ret entries
      else
        more <- lift (py_iter data) ;;
        fetch_loop fuel' model_name token (entries ++ more) (page + 1)
  end.

Definition fetch_entries_from_strapi_3 (fuel : nat) (model_name : option string)
                                       (token : pyvalue) : M (list pyvalue) :=
  fetch_loop fuel model_name token [] 1.

(** *** Create Stage *)

(** The first lines of the loop body: keep the old identifier, drop the
    source's own metadata. *)
Definition strip_metadata (entry : pyvalue) : res dict :=
  match getitem entry "id" with
  | Ok id =>
      match entry with
      | VDict d =>
          Ok (dict_pop (dict_pop (dict_pop (dict_set d "old_id" id) "id")
                                 "created_at") "updated_at")
      | _ => Raise TypeError
      end
  | Raise e => Raise e
  | OutOfFuel => OutOfFuel
  end.

(** The three passes of the loop body. *)
Definition transform_entry (entry : dict) : M dict :=
  entry <- handle_media_fields entry ;;
  entry <- map_relationships entry ;;
  handle_components entry (HEADERS_4 cfg).

(** The end of the loop body: submit, and report by the status. *)
Definition submit_entry (model_name : option string) (entry : dict) : M unit :=
  response <- send (PostCreate (fstr (STRAPI_4_BASE_URL cfg) ++ "/api/" ++ fstr model_name)
                               (HEADERS_4 cfg) (VDict [("data", VDict entry)])) ;;
  if negb (status_code response =? 200) && negb (status_code response =? 201) then
    print (MsgFailed (VDict entry)) ;;;
    print (MsgResponse (text response))
  else print (MsgSuccess (VDict entry)).

Fixpoint create_entries_in_strapi_4 (model_name : option string) (entries : list pyvalue) : M unit :=
  match entries with
  | [] => ret tt
  | entry :: rest =>
      entry <- lift (strip_metadata entry) ;;
      entry <- transform_entry entry ;;
      submit_entry model_name entry ;;;
      create_entries_in_strapi_4 model_name rest
  end.

(** *** Orchestrator *)

Definition main (fuel : nat) : M unit :=
  print MsgAuthenticating ;;;
  token <- get_strapi_3_token ;;
  print (MsgFetchingEntries (STRAPI_3_MODEL cfg)) ;;;
  entries <- fetch_entries_from_strapi_3 fuel (STRAPI_3_MODEL cfg) token ;;
  print (MsgFetched (List.length entries)) ;;;
  print MsgCreating ;;;
  create_entries_in_strapi_4 (STRAPI_4_MODEL cfg) entries ;;;
  print MsgComplete.

End Program.

(* ================================================================= *)
(** ** Vocabulary of the properties *)

(** Identifiers and other leaves: neither a mapping nor a sequence. *)
Definition is_scalar (v : pyvalue) : bool :=
  match v with
  | VList _ | VDict _ => false
  | _ => true
  end.

(** A status on which [raise_for_status] stays silent. *)
Definition passes_status (response : response) : Prop :=
  ((400 <=? status_code response) && (status_code response <? 600))%bool = false.

Definition is_login_request (r : request) : bool :=
  match r with PostLogin _ _ _ => true | _ => false end.

Definition is_page_request (r : request) : bool :=
  match r with GetPage _ _ _ _ => true | _ => false end.

Definition is_creation_request (r : request) : bool :=
  match r with PostCreate _ _ _ => true | _ => false end.

(** What the Entry Transformer may send: downloads, uploads, lookups. *)
Definition is_transform_request (r : request) : bool :=
  match r with
  | GetMediaFile _ | PostUpload _ _ _ _ | GetRelated _ _ _ => true
  | _ => false
  end.

Definition is_create_stage_request (r : request) : bool :=
  is_transform_request r || is_creation_request r.

Definition page_requests (l : list request) : nat :=
  List.length (filter is_page_request l).

Definition creation_requests (l : list request) : nat :=
  List.length (filter is_creation_request l).

(** The entries submitted to the creation endpoint, oldest first. *)
Fixpoint submitted (l : list request) : list pyvalue :=
  match l with
  | [] => []
  | PostCreate _ _ data :: rest => data :: submitted rest
  | _ :: rest => submitted rest
  end.

(** The slice a Strapi 3 list endpoint answers [_limit], [_start] with. *)
Definition page_of (src : list pyvalue) (limit start : Z) : list pyvalue :=
  firstn (Z.to_nat limit) (skipn (Z.to_nat start) src).

(** The least number of pages of [p] entries that hold [n] entries. *)
Definition ceil_div (n p : nat) : nat := ((n + p - 1) / p)%nat.

(** The requests [s'] has seen beyond those of [s] all satisfy [allowed],
    and nothing else is known to have changed. *)
Definition grows {World} (allowed : request -> bool) (s s' : state World) : Prop :=
  exists l, log s' = (log s ++ l)%list /\ forallb allowed l = true.

(** A computation that only ever sends [allowed] requests, and that the
    model never cuts short. *)
Definition sends_only {World A} (allowed : request -> bool) (m : M World A) : Prop :=
  forall s r s', m s = (r, s') -> grows allowed s s' /\ r <> OutOfFuel.

Section Vocabulary.

Context {World : Type} {platform : Platform World}.
Variable cfg : config.

(** The source holds exactly the entries [src], in this order. *)
Definition source_holds (src : list pyvalue) : Prop :=
  forall url token limit start w,
    0 < limit -> 0 <= start ->
    exists response w',
      http_send (GetPage url token limit start) w = (Some response, w') /\
      passes_status response /\
      json response = Some (VList (page_of src limit start)).

(** The source lets the configured account in. *)
Definition source_admits : Prop :=
  forall s, exists token s', get_strapi_3_token cfg s = (Ok token, s').

(** The destination answers every creation request, with whatever status. *)
Definition destination_answers : Prop :=
  forall url auth data w, fst (http_send (PostCreate url auth data) w) <> None.


(** [rids] are what the Relationship Resolver returned for the [id]s of
    [items] under [model], one lookup after the other in the order of
    [items]. *)
Inductive resolved (model : string) : list pyvalue -> state World -> list pyvalue -> state World -> Prop :=
| resolved_nil : forall s, resolved model [] s [] s
| resolved_cons : forall d old_id rest s rid s1 rids s2,
    dict_get d "id" = Some old_id ->
    fetch_related_id_in_strapi_4 cfg model old_id s = (Ok rid, s1) ->
    resolved model rest s1 rids s2 ->
    resolved model (VDict d :: rest) s (rid :: rids) s2.

(** [items'] are the components [items] after both passes, media first,
    one component after the other in the order of [items]. *)
Inductive descended : list pyvalue -> state World -> list pyvalue -> state World -> Prop :=
| descended_nil : forall s, descended [] s [] s
| descended_cons : forall d rest s d1 s1 d2 s2 rest' s3,
    handle_media_fields cfg d s = (Ok d1, s1) ->
    map_relationships cfg d1 s1 = (Ok d2, s2) ->
    descended rest s2 rest' s3 ->
    descended (VDict d :: rest) s (VDict d2 :: rest') s3.

(** A loop body that rewrites at most the field it is given. *)
Definition rewrites_own_field (body : dict -> string -> pyvalue -> M World dict) : Prop :=
  forall e f v s e' s',
    body e f v s = (Ok e', s') ->
    e' = e \/ exists new, e' = dict_set e f new.

(** A loop body that rewrites mappings and sequences only. *)
Definition rewrites_containers (body : dict -> string -> pyvalue -> M World dict) : Prop :=
  forall e f v s e' s',
    body e f v s = (Ok e', s') ->
    e' = e \/ (is_scalar v = false /\ exists new, e' = dict_set e f new).

End Vocabulary.

(** A fetched entry as the data model has it: a mapping, identified by a
    scalar [id]. *)
Definition identified (entry : pyvalue) : Prop :=
  exists d id, entry = VDict d /\ wf_dict d /\
               dict_get d "id" = Some id /\ is_scalar id = true.

(** The payload keeps the entry's identifier as [old_id] and has none of
    the source's own fields. *)
Definition carries_old_id (entry : pyvalue) (payload : dict) : Prop :=
  (exists id, getitem entry "id" = Ok id /\ dict_get payload "old_id" = Some id) /\
  dict_get payload "id" = None /\
  dict_get payload "created_at" = None /\
  dict_get payload "updated_at" = None.

(** An entry with an identifier and nothing to transform. *)
Definition plain_entry (entry : pyvalue) : Prop :=
  exists d, entry = VDict d /\ dict_mem d "id" = true /\
            Forall (fun kv => is_scalar (snd kv) = true) d.

(** A destination that is down: every request is answered 500. *)
Definition down_http (r : request) (w : unit) : option response * unit :=
  (Some (mkResponse 500 "Internal Server Error" None), w).

Definition down_platform : Platform unit := {|
  http_send := down_http;
  body_arrives := fun _ _ => None;
  urljoin := demo_urljoin
|}.

Definition down_start : state unit := mkState tt [] [] [("keep", "me")].

(* ================================================================= *)
(** ** Vocabulary of the further properties *)

(** The character [c] occurs in [s]. *)
Fixpoint occurs (c : ascii) (s : string) : bool :=
  match s with
  | EmptyString => false
  | String a rest => Ascii.eqb a c || occurs c rest
  end.

(** The name [download_media] gives the local file. *)
Definition file_name_of (media_url : string) : string :=
  last (split_on "/" media_url) "".

(** A value the media pass has nothing to do with: no single media
    mapping, and no list made of media mappings only. *)
Definition not_media (v : pyvalue) : bool :=
  match v with
  | VDict d => negb (truthy (dict_get_none d "url"))
  | VList items => negb (forallb is_media items)
  | _ => true
  end.

(** A value the relationship pass has nothing to do with, even under a
    configured name: no mapping with an [id], and no list whose elements
    all contain [id]. *)
Definition not_relationship (v : pyvalue) : bool :=
  match v with
  | VDict d => negb (dict_mem d "id")
  | VList items =>
      match all_contain_id items with
      | Ok false => true
      | _ => false
      end
  | _ => true
  end.

(** A source that never runs dry: every page request is answered with at
    least one entry. *)
Definition endless_http (r : request) (w : unit) : option response * unit :=
  (Some (mkResponse 200 "" (Some (VList [VDict [("id", VInt 1)]]))), w).

Definition endless_platform : Platform unit := {|
  http_send := endless_http;
  body_arrives := fun _ _ => None;
  urljoin := demo_urljoin
|}.

(** A source that admits the account and then answers every page request
    with 503; the destination behaves as in the demo. *)
Definition broken_source_http (r : request) (uploads : nat) : option response * nat :=
  match r with
  | GetPage _ _ _ _ => (Some (mkResponse 503 "Service Unavailable" None), uploads)
  | _ => demo_http r uploads
  end.

Definition broken_source_platform : Platform nat := {|
  http_send := broken_source_http;
  body_arrives := fun _ _ => None;
  urljoin := demo_urljoin
|}.

(** A destination whose upload endpoint refuses every file with 413; the
    rest behaves as in the demo. *)
Definition full_disk_http (r : request) (uploads : nat) : option response * nat :=
  match r with
  | PostUpload _ _ _ _ => (Some (mkResponse 413 "Payload Too Large" None), uploads)
  | _ => demo_http r uploads
  end.

Definition full_disk_platform : Platform nat := {|
  http_send := full_disk_http;
  body_arrives := fun _ _ => None;
  urljoin := demo_urljoin
|}.

(** A source whose first entry names an author the destination does not
    have; the rest behaves as in the demo. *)
Definition orphan_entries : list pyvalue :=
  [ VDict [("id", VInt 5); ("author", VDict [("id", VInt 3)])];
    VDict [("id", VInt 6); ("title", VStr "B")];
    VDict [("id", VInt 8); ("title", VStr "C")] ].

Definition orphan_http (r : request) (uploads : nat) : option response * nat :=
  match r with
  | GetPage _ _ limit start =>
      (Some (mkResponse 200 "" (Some (VList (demo_page orphan_entries limit start)))),
       uploads)
  | _ => demo_http r uploads
  end.

Definition orphan_platform : Platform nat := {|
  http_send := orphan_http;
  body_arrives := fun _ _ => None;
  urljoin := demo_urljoin
|}.

(** The demo servers behind a line that breaks two bytes into every
    streamed body. *)
Definition cut_platform : Platform nat := {|
  http_send := demo_http;
  body_arrives := fun _ _ => Some 2%nat;
  urljoin := demo_urljoin
|}.

(* ================================================================= *)
(** ** Python's corners, checked on small inputs *)

Example split_of_the_empty_string : split_on "," "" = [""].
Proof. reflexivity. Qed.

Example split_of_two_names : split_on "," "author,tags" = ["author"; "tags"].
Proof. reflexivity. Qed.

Example file_name_of_a_url : last (split_on "/" "http://old/a/b.png") "" = "b.png".
Proof. reflexivity. Qed.

Example file_name_of_a_directory_url : last (split_on "/" "http://old/a/") "" = "".
Proof. reflexivity. Qed.

Example id_in_a_string : contains_id (VStr "video") = Ok true.
Proof. reflexivity. Qed.

Example id_in_a_number : contains_id (VInt 5) = Raise TypeError.
Proof. reflexivity. Qed.

Example all_stops_at_the_first_false :
  all_contain_id [VDict [("name", VStr "x")]; VInt 5] = Ok false.
Proof. reflexivity. Qed.

Example empty_url_is_no_media : is_media (VDict [("url", VStr "")]) = false.
Proof. reflexivity. Qed.

Example entry_without_id : strip_metadata (VDict [("title", VStr "A")]) = Raise KeyError.
Proof. reflexivity. Qed.

Example download_into_the_parent_directory :
  fst (download_media "http://old/a/.." demo_start) = Raise IsADirectoryError.
Proof. reflexivity. Qed.

Example reference_that_is_no_string_with_a_base :
  join_media_url (demo_config []) (VInt 5) = Raise TypeError.
Proof. reflexivity. Qed.

Example reference_that_is_no_string_without_a_base :
  join_media_url (mkConfig None None None None None None None [] 10) (VInt 5) =
  Raise RequestException.
Proof. reflexivity. Qed.

Example urljoin_of_the_demo :
  demo_urljoin (Some "http://old") "/img.png" = "http://old/img.png" /\
  demo_urljoin (Some "http://old") "img.png" = "http://old/img.png" /\
  demo_urljoin (Some "http://old") "https://cdn/img.png" = "https://cdn/img.png" /\
  demo_urljoin None "/img.png" = "/img.png".
Proof. repeat split. Qed.

Example scenario_cover_entry :
  create_entries_in_strapi_4 (demo_config []) (Some "articles")
    [VDict [("id", VInt 5); ("title", VStr "A"); ("cover", demo_cover)]] demo_start =
  (Ok tt,
   mkState 1%nat
     [GetMediaFile "http://old/img.png";
      PostUpload "http://new/api/upload" "Bearer key" "img.png" "bytes";
      PostCreate "http://new/api/articles" "Bearer key"
        (VDict [("data", VDict [("title", VStr "A"); ("cover", VInt 101);
                                ("old_id", VInt 5)])])]
     [MsgSuccess (VDict [("title", VStr "A"); ("cover", VInt 101); ("old_id", VInt 5)])]
     []).
Proof. reflexivity. Qed.

Example scenario_missing_related_entity :
  fst (create_entries_in_strapi_4 (demo_config ["author"]) (Some "articles")
         [VDict [("id", VInt 5); ("author", VDict [("id", VInt 3)])];
          VDict [("id", VInt 6)]] demo_start) =
  Raise (ValueError (VInt 3)).
Proof. reflexivity. Qed.

(* ================================================================= *)
(** ** Dictionaries *)

Lemma dict_get_set_same : forall d k v, dict_get (dict_set d k v) k = Some v.
Proof.
  induction d as [|[k' v'] d IH]; intros k v; simpl.
  - now rewrite String.eqb_refl.
  - destruct (String.eqb k k') eqn:E; simpl; rewrite E; auto.
Qed.

Lemma dict_get_set_other : forall d k k' v,
  k' <> k -> dict_get (dict_set d k v) k' = dict_get d k'.
Proof.
  induction d as [|[k0 v0] d IH]; intros k k' v Hne; simpl.
  - apply String.eqb_neq in Hne. now rewrite Hne.
  - destruct (String.eqb k k0) eqn:E; simpl.
    + apply String.eqb_eq in E. subst k0.
      apply String.eqb_neq in Hne. now rewrite Hne.
    + destruct (String.eqb k' k0); auto.
Qed.

Lemma dict_get_pop_other : forall d k k',
  k' <> k -> dict_get (dict_pop d k) k' = dict_get d k'.
Proof.
  induction d as [|[k0 v0] d IH]; intros k k' Hne; simpl; auto.
  destruct (String.eqb k k0) eqn:E; simpl.
  - apply String.eqb_eq in E. subst k0.
    apply String.eqb_neq in Hne. now rewrite Hne.
  - destruct (String.eqb k' k0); auto.
Qed.

Lemma dict_get_none_notin : forall d k, ~ In k (keys d) -> dict_get d k = None.
Proof.
  induction d as [|[k0 v0] d IH]; intros k Hnin; simpl in *; auto.
  destruct (String.eqb k k0) eqn:E.
  - apply String.eqb_eq in E. subst. tauto.
  - apply IH. tauto.
Qed.

Lemma dict_get_some_in : forall d k v, dict_get d k = Some v -> In k (keys d).
Proof.
  induction d as [|[k0 v0] d IH]; intros k v H; simpl in *; try discriminate.
  destruct (String.eqb k k0) eqn:E.
  - apply String.eqb_eq in E. auto.
  - right. eauto.
Qed.

Lemma keys_pop_incl : forall d k x, In x (keys (dict_pop d k)) -> In x (keys d).
Proof.
  induction d as [|[k0 v0] d IH]; intros k x H; simpl in *; auto.
  destruct (String.eqb k k0); simpl in *; intuition eauto.
Qed.

Lemma wf_dict_pop : forall d k, wf_dict d -> wf_dict (dict_pop d k).
Proof.
  unfold wf_dict.
  induction d as [|[k0 v0] d IH]; intros k H; simpl in *; auto.
  inversion H as [|? ? Hnin Hnd]; subst.
  destruct (String.eqb k k0); simpl; auto.
  constructor; auto.
  intro Hin. apply Hnin. eapply keys_pop_incl; eauto.
Qed.

Lemma dict_get_pop_same : forall d k, wf_dict d -> dict_get (dict_pop d k) k = None.
Proof.
  unfold wf_dict.
  induction d as [|[k0 v0] d IH]; intros k H; simpl in *; auto.
  inversion H as [|? ? Hnin Hnd]; subst.
  destruct (String.eqb k k0) eqn:E; simpl.
  - apply String.eqb_eq in E. subst. now apply dict_get_none_notin.
  - rewrite E. auto.
Qed.

Lemma keys_set_incl : forall d k v x,
  In x (keys (dict_set d k v)) -> x = k \/ In x (keys d).
Proof.
  induction d as [|[k0 v0] d IH]; intros k v x H; simpl in *.
  - intuition.
  - destruct (String.eqb k k0) eqn:E; simpl in *.
    + intuition.
    + destruct H as [H|H]; auto. apply IH in H. intuition.
Qed.

Lemma wf_dict_set : forall d k v, wf_dict d -> wf_dict (dict_set d k v).
Proof.
  unfold wf_dict.
  induction d as [|[k0 v0] d IH]; intros k v H; simpl in *.
  - constructor; auto.
  - inversion H as [|? ? Hnin Hnd]; subst.
    destruct (String.eqb k k0) eqn:E; simpl.
    + constructor; auto.
    + constructor; auto.
      intro Hin. apply keys_set_incl in Hin. destruct Hin as [->|Hin]; auto.
      now rewrite String.eqb_refl in E.
Qed.

(* ================================================================= *)
(** ** Running computations *)

Create HintDb sends.

Section Verification.

Context {World : Type} {platform : Platform World}.
Variable cfg : config.

Local Abbreviation M := (M World).

Lemma bind_ok : forall A B (m : M A) (k : A -> M B) s b s',
  bind m k s = (Ok b, s') ->
  exists a s1, m s = (Ok a, s1) /\ k a s1 = (Ok b, s').
Proof.
  unfold bind. intros A B m k s b s' H.
  destruct (m s) as [[a|e|] s1]; try discriminate. eauto.
Qed.

Lemma bind_run : forall A B (m : M A) (k : A -> M B) s a s1,
  m s = (Ok a, s1) -> bind m k s = k a s1.
Proof. unfold bind. intros. now rewrite H. Qed.

Lemma bind_raise : forall A B (m : M A) (k : A -> M B) s e s1,
  m s = (Raise e, s1) -> bind m k s = (Raise e, s1).
Proof. unfold bind. intros. now rewrite H. Qed.

Lemma send_some : forall r s response w,
  http_send r (world s) = (Some response, w) ->
  send r s = (Ok response, mkState w (log s ++ [r]) (out s) (files s)).
Proof. unfold send. intros. now rewrite H. Qed.

Lemma send_none : forall r s w,
  http_send r (world s) = (None, w) ->
  send r s = (Raise RequestException, mkState w (log s ++ [r]) (out s) (files s)).
Proof. unfold send. intros. now rewrite H. Qed.

Lemma lift_ok : forall A (r : res A) (s : state World) a s',
  lift r s = (Ok a, s') -> r = Ok a /\ s' = s.
Proof. unfold lift. intros. inversion H. auto. Qed.

Lemma ret_ok : forall A (a b : A) (s s' : state World),
  ret a s = (Ok b, s') -> b = a /\ s' = s.
Proof. unfold ret. intros. inversion H. auto. Qed.

(** Take a successful run apart, bind after bind. *)
Ltac run_inv :=
  repeat match goal with
  | H : bind _ _ _ = (Ok _, _) |- _ =>
      let a := fresh "a" in let s := fresh "s" in
      let H1 := fresh "Hrun" in let H2 := fresh "Hrun" in
      apply bind_ok in H; destruct H as (a & s & H1 & H2)
  | H : lift _ _ = (Ok _, _) |- _ =>
      apply lift_ok in H; destruct H as [H ?]; subst
  | H : ret _ _ = (Ok _, _) |- _ =>
      apply ret_ok in H; destruct H; subst
  | H : raise _ _ = (Ok _, _) |- _ => discriminate H
  end.

(** *** Which requests a computation sends *)

Lemma grows_refl : forall allowed (s : state World), grows allowed s s.
Proof. intros. exists []. split; auto. now rewrite app_nil_r. Qed.

Lemma grows_trans : forall allowed (s1 s2 s3 : state World),
  grows allowed s1 s2 -> grows allowed s2 s3 -> grows allowed s1 s3.
Proof.
  intros allowed s1 s2 s3 (l1 & E1 & F1) (l2 & E2 & F2).
  exists (l1 ++ l2)%list. split.
  - now rewrite E2, E1, app_assoc.
  - rewrite forallb_app, F1, F2. reflexivity.
Qed.

Lemma grows_weaken : forall (a1 a2 : request -> bool) (s s' : state World),
  (forall r, a1 r = true -> a2 r = true) -> grows a1 s s' -> grows a2 s s'.
Proof.
  intros a1 a2 s s' Himp (l & E & F). exists l. split; auto.
  rewrite forallb_forall in *. auto.
Qed.

Lemma sends_only_ret : forall allowed A (a : A), sends_only allowed (@ret World A a).
Proof.
  intros allowed A a s r s' H. inversion H.
  split; [apply grows_refl | discriminate].
Qed.

Lemma sends_only_raise : forall allowed A e, sends_only allowed (@raise World A e).
Proof.
  intros allowed A e s r s' H. inversion H.
  split; [apply grows_refl | discriminate].
Qed.

Lemma sends_only_lift : forall allowed A (x : res A),
  x <> OutOfFuel -> sends_only allowed (@lift World A x).
Proof.
  intros allowed A x Hx s r s' H. inversion H; subst.
  split; [apply grows_refl | assumption].
Qed.

Lemma sends_only_bind : forall allowed A B (m : M A) (k : A -> M B),
  sends_only allowed m -> (forall a, sends_only allowed (k a)) ->
  sends_only allowed (bind m k).
Proof.
  intros allowed A B m k Hm Hk s r s' H. unfold bind in H.
  destruct (m s) as [[a|e|] s1] eqn:E.
  - destruct (Hm _ _ _ E) as [G1 _]. destruct (Hk _ _ _ _ H) as [G2 Hr].
    split; [eapply grows_trans; eauto | assumption].
  - inversion H; subst. destruct (Hm _ _ _ E) as [G1 _].
    split; [assumption | discriminate].
  - destruct (Hm _ _ _ E) as [_ Hr]. now elim Hr.
Qed.

Lemma sends_only_send : forall (allowed : request -> bool) r,
  allowed r = true -> sends_only allowed (send r).
Proof.
  intros allowed r Hr s o s' H. unfold send in H.
  destruct (http_send r (world s)) as [[resp|] w];
    inversion H; subst; (split; [| discriminate]);
    exists [r]; simpl; rewrite Hr; auto.
Qed.

Lemma sends_only_print : forall allowed m, sends_only allowed (@print World m).
Proof.
  intros allowed m s r s' H. inversion H. split; [| discriminate].
  exists []. simpl. now rewrite app_nil_r.
Qed.

Lemma sends_only_raise_for_status : forall allowed resp,
  sends_only allowed (@raise_for_status World resp).
Proof.
  intros. unfold raise_for_status.
  destruct (_ && _)%bool; [apply sends_only_raise | apply sends_only_ret].
Qed.

Lemma sends_only_response_json : forall allowed resp,
  sends_only allowed (@response_json World resp).
Proof.
  intros. unfold response_json.
  destruct (json resp); [apply sends_only_ret | apply sends_only_raise].
Qed.

Lemma sends_only_open_file : forall allowed name,
  sends_only allowed (@open_file World name).
Proof.
  intros allowed name s r s' H. unfold open_file in H.
  destruct (String.eqb name ""); [|destruct (is_directory_name name)];
    inversion H; subst;
    (split; [| discriminate]); exists []; simpl; now rewrite app_nil_r.
Qed.

Lemma sends_only_write_chunks : forall allowed name r response,
  sends_only allowed (write_chunks name r response).
Proof.
  intros allowed name r response s o s' H. unfold write_chunks in H.
  destruct (body_arrives r (world s)); inversion H; subst;
    (split; [| discriminate]); exists []; simpl; now rewrite app_nil_r.
Qed.

Lemma sends_only_read_file : forall allowed name,
  sends_only allowed (@read_file World name).
Proof.
  intros allowed name s r s' H. unfold read_file in H.
  destruct (file_lookup name (files s)); [|destruct (is_directory_name name)];
    inversion H; subst;
    (split; [apply grows_refl | discriminate]).
Qed.

Lemma sends_only_remove_file : forall allowed name,
  sends_only allowed (@remove_file World name).
Proof.
  intros allowed name s r s' H. unfold remove_file in H.
  destruct (file_lookup name (files s)); inversion H; subst;
    (split; [| discriminate]); exists []; simpl; now rewrite app_nil_r.
Qed.

Lemma sends_only_weaken : forall (a1 a2 : request -> bool) A (m : M A),
  (forall r, a1 r = true -> a2 r = true) -> sends_only a1 m -> sends_only a2 m.
Proof.
  intros a1 a2 A m Himp Hm s r s' H. destruct (Hm _ _ _ H).
  split; [eapply grows_weaken; eauto | assumption].
Qed.

(** The pure steps are Python's own: none of them is cut short. *)
Lemma getitem_ends : forall v k, getitem v k <> OutOfFuel.
Proof. intros [] k; simpl; try discriminate. destruct (dict_get d k); discriminate. Qed.

Lemma getitem0_ends : forall v, getitem0 v <> OutOfFuel.
Proof.
  intros []; simpl; try discriminate.
  - destruct s; discriminate.
  - destruct l; discriminate.
Qed.

Lemma join_media_url_ends : forall url, join_media_url cfg url <> OutOfFuel.
Proof.
  intros []; simpl; try discriminate;
    destruct (STRAPI_3_BASE_URL cfg) as [[|]|]; discriminate.
Qed.

Lemma py_iter_ends : forall v, py_iter v <> OutOfFuel.
Proof. intros []; simpl; discriminate. Qed.

Lemma contains_id_ends : forall v, contains_id v <> OutOfFuel.
Proof. intros []; simpl; discriminate. Qed.

Lemma all_contain_id_ends : forall items, all_contain_id items <> OutOfFuel.
Proof.
  induction items as [|v items IH]; simpl; [discriminate|].
  pose proof (contains_id_ends v).
  destruct (contains_id v) as [[|]| |]; auto; discriminate.
Qed.

Lemma strip_metadata_ends : forall entry, strip_metadata entry <> OutOfFuel.
Proof.
  intros entry. unfold strip_metadata.
  pose proof (getitem_ends entry "id").
  destruct (getitem entry "id"); auto; try discriminate.
  destruct entry; discriminate.
Qed.

#[local] Hint Resolve sends_only_ret sends_only_raise sends_only_lift sends_only_print
  sends_only_raise_for_status sends_only_response_json sends_only_open_file
  sends_only_write_chunks
  sends_only_read_file sends_only_remove_file
  getitem_ends getitem0_ends join_media_url_ends py_iter_ends
  all_contain_id_ends strip_metadata_ends : sends.

(** Go through a computation bind by bind. *)
Ltac sends_steps :=
  repeat first
    [ solve [auto with sends]
    | apply sends_only_send; reflexivity
    | apply sends_only_bind; [| intros ?]
    | match goal with
      | |- sends_only _ (if ?b then _ else _) => destruct b
      | |- sends_only _ (match ?x with _ => _ end) => destruct x
      end ].

Lemma download_media_sends : forall media_url,
  sends_only is_transform_request (download_media media_url).
Proof. intros. unfold download_media. sends_steps. Qed.

Lemma upload_media_sends : forall file_path,
  sends_only is_transform_request (upload_media_to_strapi_4 cfg file_path).
Proof. intros. unfold upload_media_to_strapi_4. sends_steps. Qed.

#[local] Hint Resolve download_media_sends upload_media_sends : sends.

Lemma transfer_media_sends : forall item,
  sends_only is_transform_request (transfer_media cfg item).
Proof. intros. unfold transfer_media. sends_steps. Qed.

Lemma fetch_related_sends : forall model old_id,
  sends_only is_transform_request (fetch_related_id_in_strapi_4 cfg model old_id).
Proof. intros. unfold fetch_related_id_in_strapi_4. sends_steps. Qed.

#[local] Hint Resolve transfer_media_sends fetch_related_sends : sends.

Lemma for_items_sends : forall allowed (body : dict -> string -> pyvalue -> M dict),
  (forall e f v, sends_only allowed (body e f v)) ->
  forall fields e, sends_only allowed (for_items body fields e).
Proof.
  intros allowed body Hbody. induction fields as [|f fields IH]; intros e; simpl.
  - apply sends_only_ret.
  - destruct (dict_get e f); auto.
    apply sends_only_bind; auto.
Qed.

Lemma media_ids_loop_sends : forall items acc,
  sends_only is_transform_request (media_ids_loop cfg items acc).
Proof.
  induction items as [|item items IH]; intros acc; simpl; sends_steps.
Qed.

Lemma related_ids_of_sends : forall model items,
  sends_only is_transform_request (related_ids_of cfg model items).
Proof.
  induction items as [|item items IH]; simpl; sends_steps.
Qed.

#[local] Hint Resolve media_ids_loop_sends related_ids_of_sends : sends.

Lemma handle_media_fields_sends : forall entry,
  sends_only is_transform_request (handle_media_fields cfg entry).
Proof.
  intros. apply for_items_sends. intros e f v.
  unfold handle_media_field. sends_steps.
Qed.

Lemma map_relationships_sends : forall entry,
  sends_only is_transform_request (map_relationships cfg entry).
Proof.
  intros. apply for_items_sends. intros e f v.
  unfold map_relationships_field. sends_steps.
Qed.

#[local] Hint Resolve handle_media_fields_sends map_relationships_sends : sends.

Lemma handle_component_sends : forall component,
  sends_only is_transform_request (handle_component cfg component).
Proof. intros. unfold handle_component. sends_steps. Qed.

#[local] Hint Resolve handle_component_sends : sends.

Lemma components_loop_sends : forall items,
  sends_only is_transform_request (components_loop cfg items).
Proof.
  induction items as [|item items IH]; simpl; sends_steps.
Qed.

#[local] Hint Resolve components_loop_sends : sends.

Lemma handle_components_sends : forall entry token,
  sends_only is_transform_request (handle_components cfg entry token).
Proof.
  intros. apply for_items_sends. intros e f v.
  unfold handle_components_field. sends_steps.
Qed.

#[local] Hint Resolve handle_components_sends : sends.

Lemma transform_entry_sends : forall entry,
  sends_only is_transform_request (transform_entry cfg entry).
Proof. intros. unfold transform_entry. sends_steps. Qed.

(* ================================================================= *)
(** ** The loop over the fields of an entry *)

Lemma for_items_inv : forall (body : dict -> string -> pyvalue -> M dict)
                             (I : dict -> Prop) fields,
  (forall e f v s e' s',
      In f fields -> I e -> dict_get e f = Some v ->
      body e f v s = (Ok e', s') -> I e') ->
  forall e s e' s', I e -> for_items body fields e s = (Ok e', s') -> I e'.
Proof.
  intros body I. induction fields as [|f fields IH]; intros Hstep e s e' s' HI H.
  - simpl in H. run_inv. assumption.
  - simpl in H. destruct (dict_get e f) as [v|] eqn:Hget.
    + run_inv. eapply IH; [ | | eassumption].
      * intros. eapply Hstep; eauto. now right.
      * eapply Hstep; eauto. now left.
    + eapply IH; [ | eassumption | eassumption].
      intros. eapply Hstep; eauto. now right.
Qed.

(** With distinct fields, the value a field ends with is the one its own
    turn of the loop gave it, computed from the value it started with. *)
Lemma for_items_at : forall allowed (body : dict -> string -> pyvalue -> M dict),
  rewrites_own_field body ->
  (forall e f v, sends_only allowed (body e f v)) ->
  forall fields e s e' s' f v,
    NoDup fields -> In f fields -> dict_get e f = Some v ->
    for_items body fields e s = (Ok e', s') ->
    exists e1 s1 e2 s2,
      grows allowed s s1 /\ grows allowed s2 s' /\
      dict_get e1 f = Some v /\ body e1 f v s1 = (Ok e2, s2) /\
      dict_get e' f = dict_get e2 f.
Proof.
  intros allowed body Hloc Hsend. induction fields as [|g fields IH];
    intros e s e' s' f v Hnd Hin Hget H.
  - destruct Hin.
  - inversion Hnd as [|? ? Hnin Hnd']; subst. simpl in H.
    destruct (string_dec g f) as [->|Hne].
    + rewrite Hget in H. run_inv.
      exists e, s, a, s0. repeat split; auto.
      * apply grows_refl.
      * eapply for_items_sends; eauto.
      * eapply (for_items_inv body (fun x => dict_get x f = dict_get a f));
          [ | reflexivity | eassumption].
        intros e0 f0 v0 t e0' t' Hf0 HI Hg0 Hb.
        destruct (Hloc _ _ _ _ _ _ Hb) as [->|[new ->]]; auto.
        rewrite dict_get_set_other; auto.
        intro; subst; contradiction.
    + destruct Hin as [Heq|Hin]; [contradiction|].
      destruct (dict_get e g) as [vg|] eqn:Hgg.
      * run_inv.
        destruct (IH a s0 e' s' f v) as (e1 & s1 & e2 & s2 & G1 & G2 & R);
          auto.
        { destruct (Hloc _ _ _ _ _ _ Hrun) as [->|[new ->]]; auto.
          rewrite dict_get_set_other; auto. }
        exists e1, s1, e2, s2. repeat split; try tauto.
        eapply grows_trans; [eapply Hsend; eauto | exact G1].
      * eapply IH; eauto.
Qed.

(** *** What one turn of each pass can do to the entry *)

Lemma handle_media_field_shape : forall e f v s e' s',
  handle_media_field cfg e f v s = (Ok e', s') ->
  e' = e \/ (is_scalar v = false /\ exists new, e' = dict_set e f new).
Proof.
  intros e f v s e' s' H. unfold handle_media_field in H.
  destruct v; try (run_inv; now left).
  - destruct (forallb is_media l); run_inv; eauto.
  - destruct (truthy _); run_inv; eauto.
Qed.

Lemma map_relationships_field_shape : forall e f v s e' s',
  map_relationships_field cfg e f v s = (Ok e', s') ->
  e' = e \/ (str_in f (RELATIONSHIP_FIELDS cfg) = true /\ is_scalar v = false /\
             exists new, e' = dict_set e f new).
Proof.
  intros e f v s e' s' H. unfold map_relationships_field in H.
  destruct (str_in f (RELATIONSHIP_FIELDS cfg)); simpl in H;
    [| run_inv; now left].
  destruct v; try (run_inv; now left).
  - run_inv. destruct a; run_inv; eauto.
  - destruct (dict_mem d "id"); run_inv; eauto.
Qed.

Lemma handle_components_field_shape : forall e f v s e' s',
  handle_components_field cfg e f v s = (Ok e', s') ->
  e' = e \/ (is_scalar v = false /\ exists new, e' = dict_set e f new).
Proof.
  intros e f v s e' s' H. unfold handle_components_field in H.
  destruct v; try (run_inv; now left).
  - destruct (forallb is_dict l); run_inv; eauto.
  - run_inv; eauto.
Qed.

Lemma handle_media_field_local : rewrites_own_field (handle_media_field cfg).
Proof.
  intros e f v s e' s' H.
  apply handle_media_field_shape in H. destruct H as [|[_ ?]]; auto.
Qed.

Lemma map_relationships_field_local : rewrites_own_field (map_relationships_field cfg).
Proof.
  intros e f v s e' s' H.
  apply map_relationships_field_shape in H. destruct H as [|(_ & _ & ?)]; auto.
Qed.

(** *** The two inner loops *)



Lemma related_ids_of_resolved : forall model items s rids s',
  Forall (fun v => is_dict v = true) items ->
  related_ids_of cfg model items s = (Ok rids, s') ->
  resolved cfg model items s rids s'.
Proof.
  induction items as [|item items IH]; intros s rids s' Hall H; simpl in H.
  - run_inv. constructor.
  - inversion Hall as [|? ? Hd Hall']; subst.
    destruct item; try discriminate Hd.
    run_inv.
    match goal with
    | Hg : getitem (VDict d) "id" = Ok _ |- _ =>
        simpl in Hg; destruct (dict_get d "id") as [old_id|] eqn:Hid;
        inversion Hg; subst
    end.
    econstructor; eauto.
Qed.

Lemma resolved_length : forall model items s rids s',
  resolved cfg model items s rids s' -> List.length rids = List.length items.
Proof. induction 1; simpl; auto. Qed.

Lemma all_contain_id_dicts : forall items,
  Forall (fun v => exists d, v = VDict d /\ dict_mem d "id" = true) items ->
  all_contain_id items = Ok true.
Proof.
  induction 1 as [|v items (d & -> & Hmem) _ IH]; simpl; auto.
  now rewrite Hmem.
Qed.


(* ================================================================= *)
(** ** The media pass *)


(* ================================================================= *)
(** ** The relationship pass *)

(** C2.  In an entry the relationship pass has gone through, a configured
    relationship field that held one mapping with [id] X holds
    [{connect: [{id: R}]}], R being what the Relationship Resolver returned
    for X with the field's name as the model; and one that held a sequence
    of mappings with [id] holds a single [connect] directive that lists, in
    the order of the elements, what the resolver returned for each. *)
Theorem relationship_pass_connects :
  forall entry s entry' s' field value,
    wf_dict entry ->
    str_in field (RELATIONSHIP_FIELDS cfg) = true ->
    dict_get entry field = Some value ->
    map_relationships cfg entry s = (Ok entry', s') ->
    (forall d X,
        value = VDict d -> dict_get d "id" = Some X ->
        exists s1 s2 R,
          grows is_transform_request s s1 /\ grows is_transform_request s2 s' /\
          fetch_related_id_in_strapi_4 cfg field X s1 = (Ok R, s2) /\
          dict_get entry' field =
            Some (VDict [("connect", VList [VDict [("id", R)]])])) /\
    (forall items,
        value = VList items ->
        Forall (fun v => exists d, v = VDict d /\ dict_mem d "id" = true) items ->
        exists s1 s2 rids,
          grows is_transform_request s s1 /\ grows is_transform_request s2 s' /\
          resolved cfg field items s1 rids s2 /\
          dict_get entry' field =
            Some (VDict [("connect",
                          VList (map (fun rid => VDict [("id", rid)]) rids))]) /\
          List.length rids = List.length items).
Proof.
  intros entry s entry' s' field value Hwf Hin Hget Hrun.
  destruct (for_items_at is_transform_request (map_relationships_field cfg)
              map_relationships_field_local
              (fun e f v => ltac:(unfold map_relationships_field; sends_steps))
              (keys entry) entry s entry' s' field value Hwf
              (dict_get_some_in _ _ _ Hget) Hget Hrun)
    as (e1 & s1 & e2 & s2 & G1 & G2 & Hv & Hbody & Hfinal).
  unfold map_relationships_field in Hbody. rewrite Hin in Hbody. simpl in Hbody.
  split.
  - intros d X -> Hid. unfold dict_mem in Hbody. rewrite Hid in Hbody.
    run_inv.
    match goal with
    | Hg : getitem (VDict d) "id" = Ok _ |- _ =>
        simpl in Hg; rewrite Hid in Hg; inversion Hg; subst
    end.
    rewrite Hfinal, dict_get_set_same.
    do 3 eexists. repeat split; try eassumption.
  - intros items -> Hall. run_inv.
    match goal with
    | Hg : all_contain_id items = Ok _ |- _ =>
        rewrite (all_contain_id_dicts _ Hall) in Hg; inversion Hg; subst
    end.
    run_inv.
    match goal with
    | Hl : related_ids_of _ _ _ _ = _ |- _ =>
        apply related_ids_of_resolved in Hl
    end.
    + rewrite Hfinal, dict_get_set_same.
      do 3 eexists. repeat split; try eassumption.
      eapply resolved_length; eauto.
    + eapply Forall_impl; [| exact Hall].
      intros v (d & -> & _). reflexivity.
Qed.

(** C7.  The relationship pass leaves the value of every field outside the
    configured set as it was, whatever its shape. *)
Theorem relationship_pass_frame :
  forall entry s entry' s' field,
    str_in field (RELATIONSHIP_FIELDS cfg) = false ->
    map_relationships cfg entry s = (Ok entry', s') ->
    dict_get entry' field = dict_get entry field.
Proof.
  intros entry s entry' s' field Hout Hrun.
  eapply (for_items_inv (map_relationships_field cfg)
            (fun e => dict_get e field = dict_get entry field));
    [ | reflexivity | exact Hrun].
  intros e f v t e1 t1 _ HI _ Hb.
  apply map_relationships_field_shape in Hb.
  destruct Hb as [->|(Hf & _ & new & ->)]; auto.
  rewrite dict_get_set_other; auto.
  intro; subst. congruence.
Qed.

(** C10.  On a configured relationship field that holds the empty list, the
    field's turn of the relationship pass sends nothing, changes nothing
    but the field, and sets it to [{connect: []}]; and that is the value
    the field has when the pass is over. *)
Theorem relationship_pass_empty_list :
  forall field,
    str_in field (RELATIONSHIP_FIELDS cfg) = true ->
    (forall entry s,
        map_relationships_field cfg entry field (VList []) s =
          (Ok (dict_set entry field (VDict [("connect", VList [])])), s)) /\
    (forall entry s entry' s',
        wf_dict entry ->
        dict_get entry field = Some (VList []) ->
        map_relationships cfg entry s = (Ok entry', s') ->
        dict_get entry' field = Some (VDict [("connect", VList [])])).
Proof.
  intros field Hin.
  assert (Hstep : forall entry s,
             map_relationships_field cfg entry field (VList []) s =
               (Ok (dict_set entry field (VDict [("connect", VList [])])), s)).
  { intros. unfold map_relationships_field. rewrite Hin. reflexivity. }
  split; auto.
  intros entry s entry' s' Hwf Hget Hrun.
  destruct (for_items_at is_transform_request (map_relationships_field cfg)
              map_relationships_field_local
              (fun e f v => ltac:(unfold map_relationships_field; sends_steps))
              (keys entry) entry s entry' s' field (VList []) Hwf
              (dict_get_some_in _ _ _ Hget) Hget Hrun)
    as (e1 & s1 & e2 & s2 & _ & _ & Hv & Hbody & Hfinal).
  rewrite Hstep in Hbody. inversion Hbody; subst.
  rewrite Hfinal. apply dict_get_set_same.
Qed.

(* ================================================================= *)
(** ** The Relationship Resolver *)

(** C5, as the code has it.  The resolver sends one lookup.  When the
    destination answers it with an error status the resolver fails with
    the HTTP error.  When the answer has another status and a body whose
    [data] is a list of matches, each a mapping with an [id], the resolver
    ends in one of two ways: it returns the [id] of the first match when
    there is one, and it fails with the not-found error exactly when there
    is none. *)
Theorem resolver_first_match_or_not_found :
  forall model old_id s response w,
    http_send (GetRelated (fstr (STRAPI_4_BASE_URL cfg) ++ "/api/" ++ model ++ "s")
                          (HEADERS_4 cfg) old_id) (world s) = (Some response, w) ->
    let run := fetch_related_id_in_strapi_4 cfg model old_id s in
    log (snd run) =
      (log s ++ [GetRelated (fstr (STRAPI_4_BASE_URL cfg) ++ "/api/" ++ model ++ "s")
                            (HEADERS_4 cfg) old_id])%list /\
    (~ passes_status response -> fst run = Raise HTTPError) /\
    (forall body matches,
        passes_status response ->
        json response = Some body ->
        getitem body "data" = Ok (VList matches) ->
        Forall (fun m => exists d id, m = VDict d /\ dict_get d "id" = Some id) matches ->
        (forall first rest,
            matches = first :: rest ->
            exists id, getitem first "id" = Ok id /\ fst run = Ok id) /\
        ((exists x, fst run = Raise (ValueError x)) <-> matches = []) /\
        ((exists id, fst run = Ok id) \/ fst run = Raise (ValueError old_id))).
Proof.
  intros model old_id s response w Hsend run.
  set (s1 := mkState w
               (log s ++ [GetRelated (fstr (STRAPI_4_BASE_URL cfg) ++ "/api/" ++ model ++ "s")
                                     (HEADERS_4 cfg) old_id])
               (out s) (files s)).
  assert (Hstart : run =
    bind (raise_for_status response)
         (fun _ =>
            body <- response_json response ;;
            data <- lift (getitem body "data") ;;
            if truthy data then
              first <- lift (getitem0 data) ;;
              lift (getitem first "id")
            else raise (ValueError old_id)) s1).
  { unfold run, fetch_related_id_in_strapi_4.
    now rewrite (bind_run _ _ _ _ _ _ _ (send_some _ _ _ _ Hsend)). }
  assert (Hlog : log (snd run) = log s1).
  { destruct run as [r s2] eqn:Hr. symmetry in Hstart.
    assert (Hs : sends_only (fun _ => false)
                   (bind (raise_for_status response)
                      (fun _ =>
                         body <- response_json response ;;
                         data <- lift (getitem body "data") ;;
                         if truthy data then
                           first <- lift (getitem0 data) ;;
                           lift (getitem first "id")
                         else raise (ValueError old_id)))) by sends_steps.
    destruct (Hs _ _ _ Hstart) as [([|x l] & Hl & Hf) _]; [|discriminate Hf].
    simpl. rewrite Hl. apply app_nil_r. }
  split; [exact Hlog|]. split.
  - intros Hst. rewrite Hstart. unfold passes_status in Hst.
    unfold bind at 1, raise_for_status.
    destruct ((400 <=? status_code response) && (status_code response <? 600))%bool;
      [reflexivity | now elim Hst].
  - intros body matches Hst Hjson Hdata Hall.
    assert (Hrun : fst run =
                   match matches with
                   | first :: _ => getitem first "id"
                   | [] => Raise (ValueError old_id)
                   end).
    { rewrite Hstart. unfold bind at 1, raise_for_status.
      red in Hst. rewrite Hst. unfold ret at 1.
      unfold bind at 1, response_json. rewrite Hjson. unfold ret at 1.
      unfold bind at 1, lift at 1. rewrite Hdata.
      destruct matches as [|first rest]; reflexivity. }
    rewrite Hrun.
    destruct matches as [|first rest].
    + repeat split; auto.
      * intros first rest Heq. discriminate Heq.
      * eexists. reflexivity.
    + inversion Hall as [|? ? (d & id & -> & Hid) _]; subst.
      simpl. rewrite Hid. repeat split.
      * intros first' rest' Heq. inversion Heq; subst. simpl. rewrite Hid. eauto.
      * intros (x & Hx). discriminate Hx.
      * intros Heq. discriminate Heq.
      * left. eauto.
Qed.

(* ================================================================= *)
(** ** The Create Stage *)

Lemma bind_cases : forall A B (m : M A) (k : A -> M B) s r s',
  bind m k s = (r, s') ->
  (exists a s1, m s = (Ok a, s1) /\ k a s1 = (r, s')) \/
  (exists e, m s = (Raise e, s') /\ r = Raise e) \/
  (m s = (OutOfFuel, s') /\ r = OutOfFuel).
Proof.
  unfold bind. intros A B m k s r s' H.
  destruct (m s) as [[a|e|] s1]; inversion H; subst; eauto.
Qed.

(** A pass of such a body keeps every scalar field and adds no field. *)
Lemma for_items_keeps : forall (body : dict -> string -> pyvalue -> M dict),
  rewrites_containers body ->
  forall fields e s e' s' k,
    match dict_get e k with
    | Some v => is_scalar v = true
    | None => True
    end ->
    for_items body fields e s = (Ok e', s') ->
    dict_get e' k = dict_get e k.
Proof.
  intros body Hshape fields e s e' s' k Hk Hrun.
  eapply (for_items_inv body (fun x => dict_get x k = dict_get e k));
    [ | reflexivity | exact Hrun].
  intros e0 f v t e1 t1 _ HI Hget Hb.
  destruct (Hshape _ _ _ _ _ _ Hb) as [->|(Hv & new & ->)]; auto.
  rewrite dict_get_set_other; auto.
  intro; subst. rewrite <- HI, Hget in Hk. congruence.
Qed.

Lemma transform_entry_keeps : forall e s e' s' k,
  match dict_get e k with
  | Some v => is_scalar v = true
  | None => True
  end ->
  transform_entry cfg e s = (Ok e', s') ->
  dict_get e' k = dict_get e k.
Proof.
  intros e s e' s' k Hk H. unfold transform_entry in H. run_inv.
  assert (H1 : dict_get a k = dict_get e k).
  { eapply for_items_keeps; [ | exact Hk | eassumption].
    intros ? ? ? ? ? ? Hb. now apply handle_media_field_shape in Hb. }
  assert (H2 : dict_get a0 k = dict_get a k).
  { eapply for_items_keeps; [ | rewrite H1; exact Hk | eassumption].
    intros ? ? ? ? ? ? Hb. apply map_relationships_field_shape in Hb.
    destruct Hb as [|(_ & ? & ?)]; auto. }
  assert (H3 : dict_get e' k = dict_get a0 k).
  { eapply for_items_keeps; [ | rewrite H2, H1; exact Hk | eassumption].
    intros ? ? ? ? ? ? Hb. now apply handle_components_field_shape in Hb. }
  congruence.
Qed.

Lemma strip_metadata_identified : forall entry,
  identified entry ->
  exists stripped, strip_metadata entry = Ok stripped /\ carries_old_id entry stripped.
Proof.
  intros entry (d & id & -> & Hwf & Hid & Hs).
  unfold strip_metadata. simpl. rewrite Hid.
  eexists. split; [reflexivity|].
  unfold carries_old_id. simpl. rewrite Hid.
  repeat split.
  - exists id. split; auto.
    rewrite !dict_get_pop_other by discriminate. apply dict_get_set_same.
  - rewrite !dict_get_pop_other by discriminate.
    apply dict_get_pop_same, wf_dict_set, Hwf.
  - rewrite dict_get_pop_other by discriminate.
    apply dict_get_pop_same, wf_dict_pop, wf_dict_set, Hwf.
  - apply dict_get_pop_same. repeat apply wf_dict_pop. apply wf_dict_set, Hwf.
Qed.

Lemma transform_entry_carries : forall entry stripped s payload s',
  identified entry ->
  carries_old_id entry stripped ->
  transform_entry cfg stripped s = (Ok payload, s') ->
  carries_old_id entry payload.
Proof.
  intros entry stripped s payload s' (d & id & -> & Hwf & Hid & Hs)
         ((id' & Hid' & Hold) & Hno1 & Hno2 & Hno3) Hrun.
  simpl in Hid'. rewrite Hid in Hid'. inversion Hid'; subst id'.
  unfold carries_old_id. simpl. rewrite Hid.
  repeat split.
  - exists id. split; auto.
    rewrite (transform_entry_keeps _ _ _ _ "old_id" ltac:(rewrite Hold; exact Hs) Hrun).
    exact Hold.
  - rewrite (transform_entry_keeps _ _ _ _ "id" ltac:(rewrite Hno1; exact I) Hrun).
    exact Hno1.
  - rewrite (transform_entry_keeps _ _ _ _ "created_at" ltac:(rewrite Hno2; exact I) Hrun).
    exact Hno2.
  - rewrite (transform_entry_keeps _ _ _ _ "updated_at" ltac:(rewrite Hno3; exact I) Hrun).
    exact Hno3.
Qed.

Lemma submitted_app : forall l1 l2,
  submitted (l1 ++ l2) = (submitted l1 ++ submitted l2)%list.
Proof.
  induction l1 as [|r l1 IH]; intros l2; simpl; auto.
  destruct r; simpl; auto. now rewrite IH.
Qed.

Lemma submitted_transform : forall l,
  forallb is_transform_request l = true -> submitted l = [].
Proof.
  induction l as [|r l IH]; simpl; auto.
  intros H. apply andb_prop in H. destruct H as [Hr Hl].
  destruct r; simpl in *; try discriminate; auto.
Qed.

(** What submitting does, whatever the answer: one creation request, and
    a report that depends on the status only through 200 and 201. *)
Lemma submit_entry_run : forall model payload s,
  let request := PostCreate (fstr (STRAPI_4_BASE_URL cfg) ++ "/api/" ++ fstr model)
                            (HEADERS_4 cfg) (VDict [("data", VDict payload)]) in
  match http_send request (world s) with
  | (Some response, w) =>
      submit_entry cfg model payload s =
        (Ok tt,
         mkState w (log s ++ [request])
                 (out s ++
                  (if (status_code response =? 200) || (status_code response =? 201)
                   then [MsgSuccess (VDict payload)]
                   else [MsgFailed (VDict payload); MsgResponse (text response)]))
                 (files s))
  | (None, w) =>
      submit_entry cfg model payload s =
        (Raise RequestException, mkState w (log s ++ [request]) (out s) (files s))
  end.
Proof.
  intros model payload s request.
  destruct (http_send request (world s)) as [[response|] w] eqn:E.
  - unfold submit_entry. fold request.
    erewrite bind_run by (apply send_some; exact E).
    destruct (status_code response =? 200); simpl.
    + reflexivity.
    + destruct (status_code response =? 201); simpl.
      * reflexivity.
      * unfold bind, print. simpl. now rewrite <- app_assoc.
  - unfold submit_entry. fold request.
    erewrite bind_raise by (apply send_none; exact E). reflexivity.
Qed.

(** C4.  Whatever way the create stage ends, the payloads it has submitted
    are those of the first entries, in order, and each of them holds the
    entry's source identifier as [old_id] and has no [id], [created_at] or
    [updated_at]; a stage that ends normally has submitted one payload per
    entry. *)
Theorem create_stage_keeps_old_id :
  forall model entries s r s',
    Forall identified entries ->
    create_entries_in_strapi_4 cfg model entries s = (r, s') ->
    exists l payloads,
      log s' = (log s ++ l)%list /\
      submitted l = map (fun payload => VDict [("data", VDict payload)]) payloads /\
      Forall2 carries_old_id (firstn (List.length payloads) entries) payloads /\
      (r = Ok tt -> List.length payloads = List.length entries).
Proof.
  intros model entries. induction entries as [|entry rest IH];
    intros s r s' Hall Hrun.
  - inversion Hrun; subst. exists [], []. simpl.
    rewrite app_nil_r. repeat split; auto.
  - inversion Hall as [|? ? Hid Hrest]; subst.
    destruct (strip_metadata_identified _ Hid) as (stripped & Hstrip & Hcar).
    simpl in Hrun. unfold bind at 1, lift at 1 in Hrun. rewrite Hstrip in Hrun.
    destruct (transform_entry cfg stripped s) as [r1 s1] eqn:Ht.
    destruct (transform_entry_sends stripped _ _ _ Ht) as [(l1 & Hl1 & Hf1) _].
    apply bind_cases in Hrun. rewrite Ht in Hrun.
    destruct Hrun as [(payload & s1' & Heq & Hrun)|[(e & Heq & ->)|(Heq & ->)]];
      inversion Heq; subst; clear Heq.
    + pose proof (transform_entry_carries _ _ _ _ _ Hid Hcar Ht) as Hpay.
      pose proof (submit_entry_run model payload s1') as Hsub. simpl in Hsub.
      apply bind_cases in Hrun.
      destruct (http_send _ (world s1')) as [[response|] w].
      * rewrite Hsub in Hrun.
        destruct Hrun as [(u & s2 & Heq & Hrun)|[(e & Heq & _)|(Heq & _)]];
          inversion Heq; subst; clear Heq.
        apply IH in Hrun; auto.
        destruct Hrun as (l2 & payloads & Hl2 & Hs2 & Hf2 & Hlen).
        eexists (l1 ++ _ :: l2)%list, (payload :: payloads). simpl in *.
        repeat split.
        -- rewrite Hl2, Hl1, <- !app_assoc. reflexivity.
        -- rewrite submitted_app, (submitted_transform _ Hf1). simpl.
           now rewrite Hs2.
        -- constructor; auto.
        -- intros Hr. now rewrite Hlen.
      * rewrite Hsub in Hrun.
        destruct Hrun as [(u & s2 & Heq & Hrun)|[(e & Heq & ->)|(Heq & ->)]];
          inversion Heq; subst; clear Heq.
        eexists (l1 ++ [_])%list, [payload]. simpl.
        repeat split.
        -- rewrite Hl1, <- app_assoc. reflexivity.
        -- rewrite submitted_app, (submitted_transform _ Hf1). reflexivity.
        -- constructor; auto.
        -- intros Hr. discriminate Hr.
    + exists l1, []. simpl. repeat split; auto.
      * now apply submitted_transform.
      * intros Hr. discriminate Hr.
    + exists l1, []. simpl. repeat split; auto.
      * now apply submitted_transform.
      * intros Hr. discriminate Hr.
Qed.

(** C6, as the code has it.  Once an entry is transformed and the
    destination answers its creation request, the stage reports the entry
    as migrated when the status is 200 or 201, reports it as failed, with
    the payload and the body of the answer, on any other status, and in
    both cases goes on with the entries that follow. *)
Theorem create_failure_is_reported_and_skipped :
  forall model entry rest s stripped payload s1 response w,
    strip_metadata entry = Ok stripped ->
    transform_entry cfg stripped s = (Ok payload, s1) ->
    http_send (PostCreate (fstr (STRAPI_4_BASE_URL cfg) ++ "/api/" ++ fstr model)
                          (HEADERS_4 cfg) (VDict [("data", VDict payload)]))
              (world s1) = (Some response, w) ->
    create_entries_in_strapi_4 cfg model (entry :: rest) s =
    create_entries_in_strapi_4 cfg model rest
      (mkState w
         (log s1 ++ [PostCreate (fstr (STRAPI_4_BASE_URL cfg) ++ "/api/" ++ fstr model)
                                (HEADERS_4 cfg) (VDict [("data", VDict payload)])])
         (out s1 ++
          (if (status_code response =? 200) || (status_code response =? 201)
           then [MsgSuccess (VDict payload)]
           else [MsgFailed (VDict payload); MsgResponse (text response)]))
         (files s1)).
Proof.
  intros model entry rest s stripped payload s1 response w Hstrip Ht Hsend.
  simpl. unfold bind at 1, lift at 1. rewrite Hstrip.
  rewrite (bind_run _ _ _ _ _ _ _ Ht).
  pose proof (submit_entry_run model payload s1) as Hsub. cbv zeta in Hsub.
  rewrite Hsend in Hsub.
  rewrite (bind_run _ _ _ _ _ _ _ Hsub). reflexivity.
Qed.

(* ================================================================= *)
(** ** The Fetch Stage *)

Lemma ceil_div_le_iff : forall n p i,
  (0 < p)%nat -> (ceil_div n p <= i <-> n <= i * p)%nat.
Proof.
  intros n p i Hp. unfold ceil_div.
  pose proof (Nat.div_mod_eq (n + p - 1) p) as Hdm.
  pose proof (Nat.mod_upper_bound (n + p - 1) p ltac:(lia)) as Hlt.
  remember ((n + p - 1) / p)%nat as q.
  remember ((n + p - 1) mod p)%nat as r.
  split; intros H; nia.
Qed.

Lemma ceil_div_zero : forall p, (0 < p)%nat -> ceil_div 0 p = 0%nat.
Proof.
  intros p Hp.
  pose proof (proj2 (ceil_div_le_iff 0 p 0 Hp) ltac:(lia)). lia.
Qed.

Lemma ceil_div_step : forall n p,
  (0 < p)%nat -> (0 < n)%nat -> ceil_div n p = S (ceil_div (n - p) p).
Proof.
  intros n p Hp Hn.
  pose proof (ceil_div_le_iff n p (S (ceil_div (n - p) p)) Hp) as H1.
  pose proof (ceil_div_le_iff (n - p) p (ceil_div (n - p) p) Hp) as H2.
  pose proof (ceil_div_le_iff n p (ceil_div n p) Hp) as H3.
  pose proof (ceil_div_le_iff (n - p) p (ceil_div n p - 1) Hp) as H4.
  assert (n <= ceil_div n p * p)%nat by (apply H3; lia).
  assert (n - p <= ceil_div (n - p) p * p)%nat by (apply H2; lia).
  assert (ceil_div n p <= S (ceil_div (n - p) p))%nat by (apply H1; simpl; lia).
  assert (0 < ceil_div n p)%nat by (destruct (ceil_div n p); simpl in *; lia).
  assert (ceil_div (n - p) p <= ceil_div n p - 1)%nat by (apply H4; nia).
  lia.
Qed.

Lemma page_of_at : forall src limit k,
  0 < limit ->
  page_of src limit (Z.of_nat k * limit) =
  firstn (Z.to_nat limit) (skipn (k * Z.to_nat limit) src).
Proof.
  intros src limit k Hl. unfold page_of.
  rewrite Z2Nat.inj_mul, Nat2Z.id by lia. reflexivity.
Qed.

(** A page is empty exactly from the page after the last entry on. *)
Lemma page_of_empty_iff : forall src limit k,
  0 < limit ->
  page_of src limit (Z.of_nat k * limit) = [] <->
  (ceil_div (List.length src) (Z.to_nat limit) <= k)%nat.
Proof.
  intros src limit k Hl. rewrite page_of_at by assumption.
  rewrite ceil_div_le_iff by lia.
  split; intros H.
  - apply (f_equal (@List.length _)) in H.
    rewrite length_firstn, length_skipn in H. simpl in H. lia.
  - rewrite skipn_all2 by lia. apply firstn_nil.
Qed.

Lemma fetch_loop_run : forall src model token,
  source_holds src ->
  0 < BATCH_SIZE cfg ->
  forall fuel k entries s,
    (ceil_div (List.length (skipn (k * Z.to_nat (BATCH_SIZE cfg)) src))
              (Z.to_nat (BATCH_SIZE cfg)) < fuel)%nat ->
    exists s',
      fetch_loop cfg fuel model token entries (Z.of_nat k + 1) s =
        (Ok (entries ++ skipn (k * Z.to_nat (BATCH_SIZE cfg)) src)%list, s') /\
      log s' =
        (log s ++
         map (fun i => GetPage (fstr (STRAPI_3_BASE_URL cfg) ++ "/" ++ fstr model)
                               token (BATCH_SIZE cfg) (Z.of_nat i * BATCH_SIZE cfg))
             (seq k (ceil_div (List.length (skipn (k * Z.to_nat (BATCH_SIZE cfg)) src))
                              (Z.to_nat (BATCH_SIZE cfg)) + 1)))%list.
Proof.
  intros src model token Hsrc HP.
  set (P := BATCH_SIZE cfg) in *. set (p := Z.to_nat P).
  assert (Hp : (0 < p)%nat) by (unfold p; lia).
  induction fuel as [|fuel IH]; intros k entries s Hfuel; [lia|].
  destruct (Hsrc (fstr (STRAPI_3_BASE_URL cfg) ++ "/" ++ fstr model) token P
                 (Z.of_nat k * P) (world s) HP ltac:(lia))
    as (response & w & Hsend & Hst & Hjson).
  rewrite page_of_at in Hjson by assumption. fold p in Hjson.
  simpl fetch_loop. fold P.
  replace ((Z.of_nat k + 1 - 1) * P) with (Z.of_nat k * P) by lia.
  rewrite (bind_run _ _ _ _ _ _ _ (send_some _ _ _ _ Hsend)).
  unfold bind at 1, print at 1.
  unfold bind at 1, raise_for_status at 1. red in Hst. rewrite Hst. unfold ret at 1.
  unfold bind at 1, response_json at 1. rewrite Hjson. unfold ret at 1.
  set (rest := skipn (k * p) src) in *.
  destruct rest as [|x rest'] eqn:Hrest.
  - rewrite firstn_nil. simpl truthy. simpl negb. cbv iota.
    eexists. split; [unfold ret; rewrite app_nil_r; reflexivity|].
    simpl List.length. rewrite ceil_div_zero by assumption. reflexivity.
  - assert (Hne : firstn p (x :: rest') = x :: firstn (p - 1) rest').
    { destruct p; [lia|]. simpl. now rewrite Nat.sub_0_r. }
    rewrite Hne. simpl truthy. simpl negb. cbv iota.
    unfold bind at 1, lift at 1, py_iter.
    replace (Z.of_nat k + 1 + 1) with (Z.of_nat (S k) + 1) by lia.
    assert (Hskip : skipn (S k * p) src = skipn p (x :: rest')).
    { unfold rest in Hrest. rewrite <- Hrest, skipn_skipn. reflexivity. }
    assert (Hstep : ceil_div (List.length (x :: rest')) p =
                    S (ceil_div (List.length (skipn (S k * p) src)) p)).
    { rewrite Hskip, length_skipn. apply ceil_div_step; simpl; lia. }
    edestruct (IH (S k) (entries ++ x :: firstn (p - 1) rest')%list) as (s' & Hrun & Hlog).
    { fold P p. rewrite Hstep in Hfuel. apply PeanoNat.lt_S_n. exact Hfuel. }
    rewrite Hrun. fold P p in Hlog |- *. eexists. split.
    + f_equal. f_equal. rewrite <- app_assoc. f_equal.
      rewrite Hskip, <- Hne. apply firstn_skipn.
    + rewrite Hlog. simpl log. rewrite <- app_assoc. f_equal.
      rewrite Hstep. simpl. reflexivity.
Qed.

Lemma filter_all : forall (a : request -> bool) l,
  forallb a l = true -> filter a l = l.
Proof.
  induction l as [|r l IH]; simpl; auto.
  intros H. apply andb_prop in H. destruct H as [Hr Hl].
  rewrite Hr. f_equal. auto.
Qed.

(** C3, as the code has it.  From a source that holds N entries, with a
    page size P of at least one, the fetch stage returns the N entries in
    order after exactly ceil(N/P) + 1 page requests, for the offsets 0, P,
    2P, ...: every request but the last is answered with entries, and the
    last, the first to be answered with none, ends the stage. *)
Theorem fetch_stage_page_requests :
  forall src model token fuel s,
    source_holds src ->
    0 < BATCH_SIZE cfg ->
    (ceil_div (List.length src) (Z.to_nat (BATCH_SIZE cfg)) < fuel)%nat ->
    exists s' l,
      fetch_entries_from_strapi_3 cfg fuel model token s = (Ok src, s') /\
      log s' = (log s ++ l)%list /\
      l = map (fun i => GetPage (fstr (STRAPI_3_BASE_URL cfg) ++ "/" ++ fstr model)
                                token (BATCH_SIZE cfg) (Z.of_nat i * BATCH_SIZE cfg))
              (seq 0 (ceil_div (List.length src) (Z.to_nat (BATCH_SIZE cfg)) + 1)) /\
      page_requests l =
        (ceil_div (List.length src) (Z.to_nat (BATCH_SIZE cfg)) + 1)%nat /\
      (forall i,
          page_of src (BATCH_SIZE cfg) (Z.of_nat i * BATCH_SIZE cfg) = [] <->
          (ceil_div (List.length src) (Z.to_nat (BATCH_SIZE cfg)) <= i)%nat).
Proof.
  intros src model token fuel s Hsrc HP Hfuel.
  destruct (fetch_loop_run src model token Hsrc HP fuel 0%nat [] s)
    as (s' & Hrun & Hlog); [exact Hfuel|].
  simpl in Hrun, Hlog.
  exists s'. eexists. split; [exact Hrun|]. split; [exact Hlog|].
  split; [reflexivity|]. split.
  - unfold page_requests.
    rewrite filter_all.
    + now rewrite length_map, length_seq.
    + apply forallb_forall.
      intros x Hx. apply in_map_iff in Hx. destruct Hx as (i & <- & _). reflexivity.
  - intros i. now apply page_of_empty_iff.
Qed.

Lemma get_strapi_3_token_sends :
  sends_only is_login_request (get_strapi_3_token cfg).
Proof. unfold get_strapi_3_token. sends_steps. Qed.

Lemma filter_none : forall (a b : request -> bool) l,
  (forall r, a r = true -> b r = false) ->
  forallb a l = true -> filter b l = [].
Proof.
  intros a b l Hab. induction l as [|r l IH]; simpl; auto.
  intros H. apply andb_prop in H. destruct H as [Hr Hl].
  rewrite (Hab _ Hr). auto.
Qed.

Lemma creation_requests_app : forall l1 l2,
  creation_requests (l1 ++ l2) = (creation_requests l1 + creation_requests l2)%nat.
Proof.
  intros. unfold creation_requests. now rewrite filter_app, length_app.
Qed.

Lemma submit_entry_sends : forall model payload s r s',
  submit_entry cfg model payload s = (r, s') ->
  exists request,
    is_creation_request request = true /\
    log s' = (log s ++ [request])%list /\ r <> OutOfFuel.
Proof.
  intros model payload s r s' H.
  pose proof (submit_entry_run model payload s) as Hsub. cbv zeta in Hsub.
  destruct (http_send _ (world s)) as [[response|] w];
    rewrite Hsub in H; inversion H; subst; simpl;
    eexists; (repeat split; [reflexivity | discriminate]).
Qed.

(** The create stage sends what the transformer sends and one creation
    request per entry it gets through. *)
Lemma create_entries_requests : forall model entries s r s',
  create_entries_in_strapi_4 cfg model entries s = (r, s') ->
  exists l,
    log s' = (log s ++ l)%list /\
    forallb is_create_stage_request l = true /\
    r <> OutOfFuel /\
    (r = Ok tt -> creation_requests l = List.length entries).
Proof.
  intros model entries. induction entries as [|entry rest IH]; intros s r s' Hrun.
  - inversion Hrun; subst. exists []. rewrite app_nil_r.
    repeat split; auto. discriminate.
  - simpl in Hrun. apply bind_cases in Hrun.
    destruct Hrun as [(stripped & s0 & Hstrip & Hrun)|[(e & Hstrip & ->)|(Hstrip & ->)]].
    + apply lift_ok in Hstrip. destruct Hstrip as [Hstrip ->].
      apply bind_cases in Hrun.
      destruct Hrun as [(payload & s1 & Ht & Hrun)|[(e & Ht & ->)|(Ht & ->)]].
      * destruct (transform_entry_sends _ _ _ _ Ht) as [(l1 & Hl1 & Hf1) _].
        apply bind_cases in Hrun.
        destruct Hrun as [(u & s2 & Hsub & Hrun)|[(e & Hsub & ->)|(Hsub & ->)]].
        -- apply submit_entry_sends in Hsub. destruct Hsub as (rq & Hrq & Hl2 & _).
           apply IH in Hrun. destruct Hrun as (l3 & Hl3 & Hf3 & Hr & Hcount).
           exists (l1 ++ rq :: l3)%list. repeat split; auto.
           ++ rewrite Hl3, Hl2, Hl1, <- !app_assoc. reflexivity.
           ++ rewrite forallb_app. simpl. rewrite Hf3.
              unfold is_create_stage_request at 2. rewrite Hrq, orb_true_r.
              rewrite andb_true_r.
              rewrite forallb_forall in *. intros x Hx.
              unfold is_create_stage_request. now rewrite (Hf1 x Hx).
           ++ intros Hok. rewrite creation_requests_app.
              unfold creation_requests at 1.
              rewrite (filter_none is_transform_request is_creation_request l1);
                [| intros []; simpl; congruence | assumption].
              unfold creation_requests. simpl. rewrite Hrq. simpl.
              f_equal. now apply Hcount.
        -- apply submit_entry_sends in Hsub. destruct Hsub as (rq & Hrq & Hl2 & _).
           exists (l1 ++ [rq])%list. repeat split; try discriminate.
           ++ rewrite Hl2, Hl1, <- app_assoc. reflexivity.
           ++ rewrite forallb_app. simpl.
              unfold is_create_stage_request at 2. rewrite Hrq, orb_true_r.
              rewrite andb_true_r.
              rewrite forallb_forall in *. intros x Hx.
              unfold is_create_stage_request. now rewrite (Hf1 x Hx).
        -- apply submit_entry_sends in Hsub. destruct Hsub as (rq & _ & _ & Hne).
           now elim Hne.
      * destruct (transform_entry_sends _ _ _ _ Ht) as [(l1 & Hl1 & Hf1) _].
        exists l1. repeat split; try discriminate; auto.
        rewrite forallb_forall in *. intros x Hx.
        unfold is_create_stage_request. now rewrite (Hf1 x Hx).
      * destruct (transform_entry_sends _ _ _ _ Ht) as [_ Hne]. now elim Hne.
    + inversion Hstrip; subst. exists []. rewrite app_nil_r.
      repeat split; try discriminate; auto.
    + inversion Hstrip as [[Hs Heq]]. now elim (strip_metadata_ends entry).
Qed.

(** *** Entries with nothing to transform *)

Lemma dict_get_forall : forall (Q : pyvalue -> Prop) d k v,
  Forall (fun kv => Q (snd kv)) d -> dict_get d k = Some v -> Q v.
Proof.
  induction d as [|[k0 v0] d IH]; intros k v Hall Hget; simpl in *; [discriminate|].
  inversion Hall; subst.
  destruct (String.eqb k k0).
  - inversion Hget; subst. assumption.
  - eauto.
Qed.

Lemma dict_set_forall : forall (Q : pyvalue -> Prop) d k v,
  Forall (fun kv => Q (snd kv)) d -> Q v ->
  Forall (fun kv => Q (snd kv)) (dict_set d k v).
Proof.
  induction d as [|[k0 v0] d IH]; intros k v Hall Hv; simpl.
  - constructor; auto.
  - inversion Hall; subst. destruct (String.eqb k k0); constructor; auto.
Qed.

Lemma dict_pop_forall : forall (Q : pyvalue -> Prop) d k,
  Forall (fun kv => Q (snd kv)) d ->
  Forall (fun kv => Q (snd kv)) (dict_pop d k).
Proof.
  induction d as [|[k0 v0] d IH]; intros k Hall; simpl; auto.
  inversion Hall; subst. destruct (String.eqb k k0); auto.
Qed.

Lemma for_items_plain : forall (body : dict -> string -> pyvalue -> M dict),
  (forall e f v s, is_scalar v = true -> body e f v s = (Ok e, s)) ->
  forall fields e s,
    Forall (fun kv => is_scalar (snd kv) = true) e ->
    for_items body fields e s = (Ok e, s).
Proof.
  intros body Hbody. induction fields as [|f fields IH]; intros e s Hall; simpl; auto.
  destruct (dict_get e f) as [v|] eqn:Hget; auto.
  pose proof (dict_get_forall (fun v => is_scalar v = true) _ _ _ Hall Hget) as Hv.
  rewrite (bind_run _ _ _ _ _ _ _ (Hbody e f v s Hv)). auto.
Qed.

Lemma transform_entry_plain : forall e s,
  Forall (fun kv => is_scalar (snd kv) = true) e ->
  transform_entry cfg e s = (Ok e, s).
Proof.
  intros e s Hall. unfold transform_entry.
  assert (H1 : handle_media_fields cfg e s = (Ok e, s)).
  { apply for_items_plain; auto.
    intros e0 f v t Hv. destruct v; try discriminate; reflexivity. }
  assert (H2 : map_relationships cfg e s = (Ok e, s)).
  { apply for_items_plain; auto.
    intros e0 f v t Hv. unfold map_relationships_field.
    destruct (negb _); auto. destruct v; try discriminate; reflexivity. }
  assert (H3 : handle_components cfg e (HEADERS_4 cfg) s = (Ok e, s)).
  { apply for_items_plain; auto.
    intros e0 f v t Hv. destruct v; try discriminate; reflexivity. }
  rewrite (bind_run _ _ _ _ _ _ _ H1), (bind_run _ _ _ _ _ _ _ H2). exact H3.
Qed.

Lemma strip_metadata_plain : forall entry,
  plain_entry entry ->
  exists stripped,
    strip_metadata entry = Ok stripped /\
    Forall (fun kv => is_scalar (snd kv) = true) stripped.
Proof.
  intros entry (d & -> & Hmem & Hall). unfold strip_metadata, dict_mem in *. simpl.
  destruct (dict_get d "id") as [id|] eqn:Hid; [|discriminate].
  eexists. split; [reflexivity|].
  do 3 apply (dict_pop_forall (fun v => is_scalar v = true)).
  apply (dict_set_forall (fun v => is_scalar v = true)); auto.
  exact (dict_get_forall (fun v => is_scalar v = true) _ _ _ Hall Hid).
Qed.

Lemma create_entries_plain : forall model entries s,
  destination_answers ->
  Forall plain_entry entries ->
  exists s', create_entries_in_strapi_4 cfg model entries s = (Ok tt, s').
Proof.
  intros model entries s Hdest. revert s.
  induction entries as [|entry rest IH]; intros s Hall; simpl.
  - eexists. reflexivity.
  - inversion Hall as [|? ? Hplain Hrest]; subst.
    destruct (strip_metadata_plain _ Hplain) as (stripped & Hstrip & Hsc).
    unfold bind at 1, lift at 1. rewrite Hstrip.
    rewrite (bind_run _ _ _ _ _ _ _ (transform_entry_plain stripped s Hsc)).
    pose proof (submit_entry_run model stripped s) as Hsub. cbv zeta in Hsub.
    pose proof (Hdest (fstr (STRAPI_4_BASE_URL cfg) ++ "/api/" ++ fstr model)
                      (HEADERS_4 cfg) (VDict [("data", VDict stripped)]) (world s)) as Hans.
    destruct (http_send _ (world s)) as [[response|] w]; [|now elim Hans].
    rewrite (bind_run _ _ _ _ _ _ _ Hsub). apply IH. assumption.
Qed.

Lemma create_entries_at_most : forall model entries s r s',
  create_entries_in_strapi_4 cfg model entries s = (r, s') ->
  exists l,
    log s' = (log s ++ l)%list /\
    (creation_requests l <= List.length entries)%nat.
Proof.
  intros model entries. induction entries as [|entry rest IH]; intros s r s' Hrun.
  - inversion Hrun; subst. exists []. rewrite app_nil_r. split; auto.
  - assert (Hquiet : forall l1,
               forallb is_transform_request l1 = true -> creation_requests l1 = 0%nat).
    { intros l1 Hf. unfold creation_requests.
      rewrite (filter_none is_transform_request is_creation_request l1); auto.
      intros []; simpl; congruence. }
    simpl in Hrun. apply bind_cases in Hrun.
    destruct Hrun as [(stripped & s0 & Hstrip & Hrun)|[(e & Hstrip & _)|(Hstrip & _)]];
      try (inversion Hstrip; subst; exists []; rewrite app_nil_r; split;
           [reflexivity | unfold creation_requests; simpl; lia]).
    apply lift_ok in Hstrip. destruct Hstrip as [Hstrip ->].
    apply bind_cases in Hrun.
    destruct Hrun as [(payload & s1 & Ht & Hrun)|[(e & Ht & _)|(Ht & _)]];
      try (destruct (transform_entry_sends _ _ _ _ Ht) as [(l1 & Hl1 & Hf1) _];
           exists l1; split; [exact Hl1 | rewrite (Hquiet _ Hf1); lia]).
    destruct (transform_entry_sends _ _ _ _ Ht) as [(l1 & Hl1 & Hf1) _].
    apply bind_cases in Hrun.
    destruct Hrun as [(u & s2 & Hsub & Hrun)|[(e & Hsub & _)|(Hsub & _)]].
    + apply submit_entry_sends in Hsub. destruct Hsub as (rq & Hrq & Hl2 & _).
      apply IH in Hrun. destruct Hrun as (l3 & Hl3 & Hle).
      exists (l1 ++ rq :: l3)%list. split.
      * rewrite Hl3, Hl2, Hl1, <- !app_assoc. reflexivity.
      * rewrite creation_requests_app, (Hquiet _ Hf1).
        unfold creation_requests in *. simpl. rewrite Hrq. simpl. lia.
    + apply submit_entry_sends in Hsub. destruct Hsub as (rq & Hrq & Hl2 & _).
      exists (l1 ++ [rq])%list. split.
      * rewrite Hl2, Hl1, <- app_assoc. reflexivity.
      * rewrite creation_requests_app, (Hquiet _ Hf1).
        unfold creation_requests. simpl. rewrite Hrq. simpl. lia.
    + apply submit_entry_sends in Hsub. destruct Hsub as (rq & Hrq & Hl2 & _).
      exists (l1 ++ [rq])%list. split.
      * rewrite Hl2, Hl1, <- app_assoc. reflexivity.
      * rewrite creation_requests_app, (Hquiet _ Hf1).
        unfold creation_requests. simpl. rewrite Hrq. simpl. lia.
Qed.

(* ================================================================= *)
(** ** A whole run *)

Lemma bind_print : forall A (m : message) (k : unit -> M A) s,
  bind (print m) k s = k tt (mkState (world s) (log s) (out s ++ [m]) (files s)).
Proof. reflexivity. Qed.

(** C9, as the code has it.  With a source that admits the account and
    holds three entries, and a page size of 10, a run sends exactly two
    page requests, for the offsets 0 and 10, the first answered with the
    three entries and the second with none, and it is not cut short.  It
    sends at most three creation requests, however it ends: exactly three
    if it ends normally, which it does when the destination answers and
    the entries have nothing to transform. *)
Theorem three_entries_two_pages_three_creations :
  forall e1 e2 e3 fuel s r s',
    source_admits cfg ->
    source_holds [e1; e2; e3] ->
    BATCH_SIZE cfg = 10 ->
    (2 <= fuel)%nat ->
    main cfg fuel s = (r, s') ->
    exists l token,
      log s' = (log s ++ l)%list /\
      filter is_page_request l =
        [GetPage (fstr (STRAPI_3_BASE_URL cfg) ++ "/" ++ fstr (STRAPI_3_MODEL cfg)) token 10 0;
         GetPage (fstr (STRAPI_3_BASE_URL cfg) ++ "/" ++ fstr (STRAPI_3_MODEL cfg)) token 10 10] /\
      page_requests l = 2%nat /\
      page_of [e1; e2; e3] 10 0 = [e1; e2; e3] /\
      page_of [e1; e2; e3] 10 10 = [] /\
      r <> OutOfFuel /\
      (creation_requests l <= 3)%nat /\
      (r = Ok tt -> creation_requests l = 3%nat) /\
      (destination_answers -> plain_entry e1 -> plain_entry e2 -> plain_entry e3 ->
       r = Ok tt).
Proof.
  intros e1 e2 e3 fuel s r s' Hadm Hsrc HP Hfuel Hrun.
  unfold main in Hrun. rewrite bind_print in Hrun.
  match type of Hrun with
  | bind _ _ ?s0 = _ =>
      destruct (Hadm s0) as (token & s1 & Htok);
      destruct (get_strapi_3_token_sends _ _ _ Htok) as [(l0 & Hl0 & Hf0) _]
  end.
  rewrite (bind_run _ _ _ _ _ _ _ Htok), bind_print in Hrun.
  match type of Hrun with
  | bind _ _ ?s2 = _ =>
      destruct (fetch_loop_run [e1; e2; e3] (STRAPI_3_MODEL cfg) token Hsrc
                  ltac:(lia) fuel 0%nat [] s2) as (s3 & Hfetch & Hl3)
  end.
  { rewrite HP. vm_compute. lia. }
  rewrite HP in Hl3. simpl in Hfetch, Hl3.
  change (ceil_div 3 (Pos.to_nat 10)) with 1%nat in Hl3. simpl in Hl3.
  unfold fetch_entries_from_strapi_3 in Hrun.
  rewrite (bind_run _ _ _ _ _ _ _ Hfetch), !bind_print in Hrun.
  apply bind_cases in Hrun.
  assert (Hpages : forall lc,
             forallb is_create_stage_request lc = true ->
             filter is_page_request lc = []).
  { intros lc. apply filter_none. intros []; cbv; congruence. }
  assert (Hlogin : filter is_page_request l0 = []).
  { revert Hf0. apply filter_none. intros []; simpl; congruence. }
  assert (Hlogin' : creation_requests l0 = 0%nat).
  { unfold creation_requests.
    rewrite (filter_none is_login_request is_creation_request l0); auto.
    intros []; simpl; congruence. }
  set (p1 := GetPage (fstr (STRAPI_3_BASE_URL cfg) ++ "/" ++ fstr (STRAPI_3_MODEL cfg))
                     token 10 0) in *.
  set (p2 := GetPage (fstr (STRAPI_3_BASE_URL cfg) ++ "/" ++ fstr (STRAPI_3_MODEL cfg))
                     token 10 10) in *.
  assert (Hshape : forall s4 r4 s5,
             create_entries_in_strapi_4 cfg (STRAPI_4_MODEL cfg) [e1; e2; e3] s4 = (r4, s5) ->
             log s4 = (log s ++ l0 ++ [p1; p2])%list ->
             exists l,
               log s5 = (log s ++ l)%list /\
               filter is_page_request l = [p1; p2] /\
               r4 <> OutOfFuel /\
               (creation_requests l <= 3)%nat /\
               (r4 = Ok tt -> creation_requests l = 3%nat)).
  { intros s4 r4 s5 Hc Hl4.
    destruct (create_entries_at_most _ _ _ _ _ Hc) as (lc' & Hlc' & Hle).
    apply create_entries_requests in Hc.
    destruct Hc as (lc & Hlc & Hfc & Hne & Hcount).
    assert (lc' = lc) by (rewrite Hlc in Hlc'; now apply app_inv_head in Hlc').
    subst lc'.
    assert (Hpg : creation_requests [p1; p2] = 0%nat) by reflexivity.
    exists (l0 ++ [p1; p2] ++ lc)%list. repeat split; auto.
    - rewrite Hlc, Hl4, <- !app_assoc. reflexivity.
    - rewrite !filter_app, Hlogin, (Hpages _ Hfc). reflexivity.
    - rewrite !creation_requests_app, Hlogin', Hpg. simpl in Hle. lia.
    - intros Hok. rewrite !creation_requests_app, Hlogin'.
      rewrite (Hcount Hok). reflexivity. }
  assert (Hlog3 : forall m1 m2,
             log (mkState (world s3) (log s3) ((out s3 ++ m1) ++ m2) (files s3)) =
             (log s ++ l0 ++ [p1; p2])%list).
  { intros. simpl. rewrite Hl3. simpl. rewrite Hl0. simpl.
    now rewrite <- app_assoc. }
  destruct Hrun as [(u & s4 & Hc & Hrun)|[(e & Hc & ->)|(Hc & ->)]].
  - destruct (Hshape _ _ _ Hc (Hlog3 _ _)) as (l & Hl & Hfp & Hne & Hle & Hcount).
    inversion Hrun; subst. exists l, token. simpl.
    repeat split; auto; try discriminate.
    + unfold page_requests. now rewrite Hfp.
    + destruct u. auto.
  - destruct (Hshape _ _ _ Hc (Hlog3 _ _)) as (l & Hl & Hfp & Hne & Hle & Hcount).
    exists l, token. repeat split; auto; try discriminate.
    + unfold page_requests. now rewrite Hfp.
    + intros Hdest H1 H2 H3.
      match type of Hc with
      | _ ?s4 = _ =>
          destruct (create_entries_plain (STRAPI_4_MODEL cfg) [e1; e2; e3] s4 Hdest)
            as (s5 & Hok); [repeat constructor; assumption|]
      end.
      rewrite Hok in Hc. discriminate Hc.
  - destruct (Hshape _ _ _ Hc (Hlog3 _ _)) as (l & Hl & Hfp & Hne & Hle & Hcount).
    now elim Hne.
Qed.

(* ================================================================= *)
(** ** Further properties: splitting, and the files of Media Transfer *)

Lemma split_on_nonempty : forall c s, split_on c s <> [].
Proof.
  intros c s. destruct s as [|a rest]; simpl; [discriminate|].
  destruct (Ascii.eqb a c); [discriminate|].
  destruct (split_on c rest); discriminate.
Qed.

(** Joining the pieces of a split with the separator gives the string
    back. *)
Lemma split_on_concat : forall c s,
  String.concat (String c EmptyString) (split_on c s) = s.
Proof.
  intros c. induction s as [|a rest IH]; [reflexivity|].
  simpl split_on.
  pose proof (split_on_nonempty c rest) as Hne.
  destruct (Ascii.eqb a c) eqn:E.
  - apply Ascii.eqb_eq in E. subst a.
    destruct (split_on c rest) as [|x xs]; [now elim Hne|].
    change (String.concat (String c "") ("" :: x :: xs))
      with (String c (String.concat (String c "") (x :: xs))).
    now rewrite IH.
  - destruct (split_on c rest) as [|x xs]; [now elim Hne|].
    destruct xs as [|y ys].
    + simpl in *. now rewrite IH.
    + change (String.concat (String c "") (String a x :: y :: ys))
        with (String a (String.concat (String c "") (x :: y :: ys))).
      now rewrite IH.
Qed.

Lemma split_on_pieces : forall c s,
  Forall (fun piece => occurs c piece = false) (split_on c s).
Proof.
  intros c. induction s as [|a rest IH]; simpl.
  - repeat constructor.
  - destruct (Ascii.eqb a c) eqn:E.
    + constructor; auto.
    + destruct (split_on c rest) as [|x xs].
      * repeat constructor. simpl. now rewrite E.
      * inversion IH; subst. constructor; auto. simpl. now rewrite E.
Qed.

Lemma file_name_of_no_slash : forall media_url,
  occurs "/" (file_name_of media_url) = false.
Proof.
  intros media_url. unfold file_name_of.
  pose proof (split_on_pieces "/" media_url) as Hall.
  pose proof (split_on_nonempty "/" media_url) as Hne.
  induction (split_on "/" media_url) as [|x xs IH]; [now elim Hne|].
  inversion Hall; subst.
  destruct xs as [|y ys]; [assumption|].
  apply IH; [assumption | discriminate].
Qed.

Lemma split_on_whole : forall c x,
  occurs c x = false -> split_on c x = [x].
Proof.
  intros c. induction x as [|a x IH]; intros H; simpl in *; [reflexivity|].
  apply orb_false_elim in H. destruct H as [Ha Hx].
  rewrite Ha, (IH Hx). reflexivity.
Qed.

Lemma split_on_first : forall c x y,
  occurs c x = false -> split_on c (x ++ String c y) = x :: split_on c y.
Proof.
  intros c. induction x as [|a x IH]; intros y H; simpl in *.
  - now rewrite Ascii.eqb_refl.
  - apply orb_false_elim in H. destruct H as [Ha Hx].
    rewrite Ha, (IH y Hx). reflexivity.
Qed.

Lemma split_on_of_concat : forall c names,
  names <> [] ->
  Forall (fun name => occurs c name = false) names ->
  split_on c (String.concat (String c EmptyString) names) = names.
Proof.
  intros c. induction names as [|x names IH]; intros Hne Hall; [now elim Hne|].
  inversion Hall as [|? ? Hx Hrest]; subst.
  destruct names as [|y ys].
  - simpl. now apply split_on_whole.
  - change (String.concat (String c "") (x :: y :: ys))
      with (x ++ String c (String.concat (String c "") (y :: ys))).
    rewrite split_on_first by assumption.
    rewrite IH; [reflexivity | discriminate | assumption].
Qed.

(** X6.  The configured relationship field names are exactly the pieces
    between the commas of the variable's value, the empty string when it
    is unset: there is always at least one name, no name holds a comma,
    and joined by commas the names give the value back, so that nothing is
    trimmed and empty pieces count as names; no other list of names does
    that.  A field whose name holds a comma can therefore never be
    configured. *)
Theorem relationship_fields_are_the_comma_pieces :
  forall env_value,
    relationship_fields_of_env env_value <> [] /\
    Forall (fun name => occurs "," name = false) (relationship_fields_of_env env_value) /\
    String.concat "," (relationship_fields_of_env env_value) =
      getenv_default env_value "" /\
    (forall names,
        names <> [] ->
        Forall (fun name => occurs "," name = false) names ->
        String.concat "," names = getenv_default env_value "" ->
        names = relationship_fields_of_env env_value) /\
    (forall field,
        occurs "," field = true ->
        str_in field (relationship_fields_of_env env_value) = false).
Proof.
  intros env_value. unfold relationship_fields_of_env.
  pose proof (split_on_pieces "," (getenv_default env_value "")) as Hpieces.
  split; [apply split_on_nonempty|].
  split; [exact Hpieces|].
  split; [apply split_on_concat|].
  split.
  - intros names Hne Hall Heq. rewrite <- Heq.
    symmetry. now apply split_on_of_concat.
  - intros field Hfield. unfold str_in.
    induction Hpieces as [|name rest Hname _ IH]; [reflexivity|].
    simpl. rewrite IH, orb_false_r.
    apply String.eqb_neq. intros ->. congruence.
Qed.

(** *** Successful primitive steps, read backwards *)

Lemma send_ok : forall r s response s',
  send r s = (Ok response, s') ->
  exists w, http_send r (world s) = (Some response, w) /\
            s' = mkState w (log s ++ [r]) (out s) (files s).
Proof.
  unfold send. intros r s response s' H.
  destruct (http_send r (world s)) as [[resp|] w]; inversion H; subst. eauto.
Qed.

Lemma raise_for_status_ok : forall response (s : state World) u s',
  raise_for_status response s = (Ok u, s') -> passes_status response /\ s' = s.
Proof.
  unfold raise_for_status, passes_status. intros response s u s' H.
  destruct ((400 <=? status_code response) && (status_code response <? 600))%bool;
    inversion H; auto.
Qed.

Lemma response_json_ok : forall response (s : state World) body s',
  response_json response s = (Ok body, s') -> json response = Some body /\ s' = s.
Proof.
  unfold response_json. intros response s body s' H.
  destruct (json response); inversion H; auto.
Qed.

Lemma open_file_ok : forall name (s : state World) u s',
  open_file name s = (Ok u, s') ->
  name <> "" /\
  s' = mkState (world s) (log s) (out s) ((name, "") :: file_remove name (files s)).
Proof.
  unfold open_file. intros name s u s' H.
  destruct (String.eqb name "") eqn:E; [discriminate|].
  destruct (is_directory_name name); inversion H; subst.
  apply String.eqb_neq in E. auto.
Qed.

Lemma file_remove_written : forall name content fs,
  file_remove name ((name, content) :: file_remove name fs) = file_remove name fs.
Proof.
  intros name content fs. unfold file_remove. simpl.
  rewrite String.eqb_refl. simpl.
  induction fs as [|[n c] fs IH]; simpl; auto.
  destruct (String.eqb name n) eqn:E; simpl; auto.
  rewrite E. simpl. now f_equal.
Qed.

Lemma write_chunks_ok : forall name r response (s : state World) u s',
  write_chunks name r response s = (Ok u, s') ->
  s' = mkState (world s) (log s) (out s)
               ((name, text response) :: file_remove name (files s)).
Proof.
  unfold write_chunks. intros name r response s u s' H.
  destruct (body_arrives r (world s)); inversion H; auto.
Qed.

Lemma read_file_ok : forall name (s : state World) content s',
  read_file name s = (Ok content, s') ->
  file_lookup name (files s) = Some content /\ s' = s.
Proof.
  unfold read_file. intros name s content s' H.
  destruct (file_lookup name (files s)); [|destruct (is_directory_name name)];
    inversion H; auto.
Qed.

Lemma remove_file_ok : forall name (s : state World) u s',
  remove_file name s = (Ok u, s') ->
  s' = mkState (world s) (log s) (out s) (file_remove name (files s)).
Proof.
  unfold remove_file. intros name s u s' H.
  destruct (file_lookup name (files s)); inversion H; auto.
Qed.

Lemma file_lookup_remove : forall name fs, file_lookup name (file_remove name fs) = None.
Proof.
  intros name fs. unfold file_lookup, file_remove.
  induction fs as [|[n c] fs IH]; simpl; auto.
  destruct (String.eqb name n) eqn:E; simpl; auto.
  now rewrite E.
Qed.

Lemma file_lookup_written : forall name content fs,
  file_lookup name ((name, content) :: fs) = Some content.
Proof. intros. unfold file_lookup. simpl. now rewrite String.eqb_refl. Qed.

(** Take a successful run apart down to the answers of the servers. *)
Ltac steps_inv :=
  run_inv;
  repeat match goal with
  | H : send _ _ = (Ok _, _) |- _ =>
      let w := fresh "w" in let Hs := fresh "Hsend" in
      apply send_ok in H; destruct H as (w & Hs & ?); subst
  | H : raise_for_status _ _ = (Ok _, _) |- _ =>
      let Hp := fresh "Hpass" in
      apply raise_for_status_ok in H; destruct H as [Hp ?]; subst
  | H : response_json _ _ = (Ok _, _) |- _ =>
      let Hj := fresh "Hjson" in
      apply response_json_ok in H; destruct H as [Hj ?]; subst
  | H : open_file _ _ = (Ok _, _) |- _ =>
      let Hn := fresh "Hname" in
      apply open_file_ok in H; destruct H as [Hn ?]; subst
  | H : write_chunks _ _ _ _ = (Ok _, _) |- _ =>
      apply write_chunks_ok in H; subst
  | H : read_file _ _ = (Ok _, _) |- _ =>
      let Hr := fresh "Hread" in
      apply read_file_ok in H; destruct H as [Hr ?]; subst
  | H : remove_file _ _ = (Ok _, _) |- _ =>
      apply remove_file_ok in H; subst
  end.

Lemma download_media_ok : forall media_url s file_name s',
  download_media media_url s = (Ok file_name, s') ->
  exists response w,
    http_send (GetMediaFile media_url) (world s) = (Some response, w) /\
    passes_status response /\
    file_name = file_name_of media_url /\
    file_name <> "" /\
    s' = mkState w (log s ++ [GetMediaFile media_url]) (out s)
                 ((file_name, text response) :: file_remove file_name (files s)).
Proof.
  intros media_url s file_name s' H. unfold download_media in H.
  steps_inv. fold (file_name_of media_url) in *. cbn [world log out files].
  rewrite file_remove_written.
  eexists. eexists. repeat split; eassumption.
Qed.

Lemma upload_media_ok : forall file_path s uploaded_media s',
  upload_media_to_strapi_4 cfg file_path s = (Ok uploaded_media, s') ->
  exists content response w body,
    file_lookup file_path (files s) = Some content /\
    http_send (PostUpload (fstr (STRAPI_4_BASE_URL cfg) ++ "/api/upload")
                          (HEADERS_4 cfg) file_path content) (world s)
      = (Some response, w) /\
    passes_status response /\
    json response = Some body /\
    getitem0 body = Ok uploaded_media /\
    s' = mkState w
           (log s ++ [PostUpload (fstr (STRAPI_4_BASE_URL cfg) ++ "/api/upload")
                                 (HEADERS_4 cfg) file_path content])
           (out s) (file_remove file_path (files s)).
Proof.
  intros file_path s uploaded_media s' H. unfold upload_media_to_strapi_4 in H.
  steps_inv. simpl in *.
  do 4 eexists. repeat split; eassumption.
Qed.

(** X1.  A download that succeeds was answered with a status that is no
    error; it has sent its one request and written the body of the answer
    to a file of the working directory whose name is the last segment of
    the address, is not empty and holds no slash; nothing else changed. *)
Theorem download_media_success :
  forall media_url s file_name s',
    download_media media_url s = (Ok file_name, s') ->
    exists response w,
      http_send (GetMediaFile media_url) (world s) = (Some response, w) /\
      passes_status response /\
      file_name = file_name_of media_url /\
      file_name <> "" /\
      occurs "/" file_name = false /\
      s' = mkState w (log s ++ [GetMediaFile media_url]) (out s)
                   ((file_name, text response) :: file_remove file_name (files s)).
Proof.
  intros media_url s file_name s' H.
  destruct (download_media_ok _ _ _ _ H) as (response & w & Hsend & Hst & Hn & Hne & Hs).
  exists response, w. repeat split; auto.
  rewrite Hn. apply file_name_of_no_slash.
Qed.

(** X2.  A download that fails has sent its one request.  It leaves the
    working directory as it was when the request got no answer, when the
    answer had an error status, and when the file could not be opened.
    Otherwise the connection broke while the body was streamed: then the
    failure is the transport's, and the one change is the file named after
    the address, which holds the part of the body that came. *)
Theorem download_media_failure :
  forall media_url s e s',
    download_media media_url s = (Raise e, s') ->
    log s' = (log s ++ [GetMediaFile media_url])%list /\
    (files s' = files s \/
     (e = RequestException /\
      exists response w n,
        http_send (GetMediaFile media_url) (world s) = (Some response, w) /\
        passes_status response /\
        files s' =
          (file_name_of media_url, substring 0 n (text response))
          :: file_remove (file_name_of media_url) (files s))).
Proof.
  intros media_url s e s' H. unfold download_media in H.
  fold (file_name_of media_url) in H.
  unfold bind at 1, send in H.
  destruct (http_send (GetMediaFile media_url) (world s)) as [[response|] w].
  - unfold bind at 1, raise_for_status in H.
    destruct ((400 <=? status_code response) && (status_code response <? 600))%bool
      eqn:Hst.
    + inversion H; subst. auto.
    + unfold ret at 1, bind at 1, open_file in H.
      destruct (String.eqb (file_name_of media_url) "");
        [inversion H; subst; auto|].
      destruct (is_directory_name (file_name_of media_url));
        [inversion H; subst; auto|].
      unfold bind at 1, write_chunks in H. cbn [world log out files] in H.
      rewrite !file_remove_written in H.
      destruct (body_arrives (GetMediaFile media_url) w) as [n|];
        inversion H; subst; cbn [world log out files].
      split; [reflexivity|]. right. split; [reflexivity|].
      exists response, w, n. repeat split. exact Hst.
  - inversion H; subst. auto.
Qed.

(** X3.  An upload that succeeds has read the file, sent its content in
    one request that was answered with a status that is no error, removed
    the file, and returned the first element of the decoded answer. *)
Theorem upload_media_success :
  forall file_path s uploaded_media s',
    upload_media_to_strapi_4 cfg file_path s = (Ok uploaded_media, s') ->
    exists content response w body,
      file_lookup file_path (files s) = Some content /\
      http_send (PostUpload (fstr (STRAPI_4_BASE_URL cfg) ++ "/api/upload")
                            (HEADERS_4 cfg) file_path content) (world s)
        = (Some response, w) /\
      passes_status response /\
      json response = Some body /\
      getitem0 body = Ok uploaded_media /\
      file_lookup file_path (files s') = None /\
      s' = mkState w
             (log s ++ [PostUpload (fstr (STRAPI_4_BASE_URL cfg) ++ "/api/upload")
                                   (HEADERS_4 cfg) file_path content])
             (out s) (file_remove file_path (files s)).
Proof.
  intros file_path s uploaded_media s' H.
  destruct (upload_media_ok _ _ _ _ H)
    as (content & response & w & body & Hfile & Hsend & Hst & Hjson & Hfirst & Hs).
  exists content, response, w, body. repeat split; auto.
  rewrite Hs. simpl. apply file_lookup_remove.
Qed.

(** X4.  When the destination refuses an upload with an error status, the
    upload fails with the HTTP error and the local file stays where it
    was: only the success path cleans up. *)
Theorem upload_media_refused_keeps_file :
  forall file_path s content response w,
    file_lookup file_path (files s) = Some content ->
    http_send (PostUpload (fstr (STRAPI_4_BASE_URL cfg) ++ "/api/upload")
                          (HEADERS_4 cfg) file_path content) (world s)
      = (Some response, w) ->
    ~ passes_status response ->
    exists s',
      upload_media_to_strapi_4 cfg file_path s = (Raise HTTPError, s') /\
      file_lookup file_path (files s') = Some content /\
      files s' = files s.
Proof.
  intros file_path s content response w Hfile Hsend Hst.
  unfold upload_media_to_strapi_4.
  assert (Hread : read_file file_path s = (Ok content, s))
    by (unfold read_file; now rewrite Hfile).
  rewrite (bind_run _ _ _ _ _ _ _ Hread).
  rewrite (bind_run _ _ _ _ _ _ _ (send_some _ _ _ _ Hsend)).
  unfold bind at 1, raise_for_status. unfold passes_status in Hst.
  destruct ((400 <=? status_code response) && (status_code response <? 600))%bool;
    [| now elim Hst].
  eexists. split; [reflexivity|]. simpl. auto.
Qed.

(** X5.  A media transfer that succeeds has sent exactly two requests,
    the download of the joined address and then the upload, under the
    file name of that address, of exactly the body the download was
    answered with; and it leaves no file of that name behind. *)
Theorem transfer_media_round_trip :
  forall media_item s id s',
    transfer_media cfg media_item s = (Ok id, s') ->
    exists url response w,
      getitem media_item "url" = Ok (VStr url) /\
      http_send (GetMediaFile (urljoin (STRAPI_3_BASE_URL cfg) url)) (world s)
        = (Some response, w) /\
      log s' =
        (log s ++
         [GetMediaFile (urljoin (STRAPI_3_BASE_URL cfg) url);
          PostUpload (fstr (STRAPI_4_BASE_URL cfg) ++ "/api/upload") (HEADERS_4 cfg)
                     (file_name_of (urljoin (STRAPI_3_BASE_URL cfg) url))
                     (text response)])%list /\
      file_lookup (file_name_of (urljoin (STRAPI_3_BASE_URL cfg) url)) (files s') = None /\
      out s' = out s.
Proof.
  intros media_item s id s' H. unfold transfer_media in H. run_inv.
  match goal with
  | Hj : join_media_url _ ?u = Ok _ |- _ =>
      destruct u as [| | |url| |]; simpl in Hj;
      try (destruct (STRAPI_3_BASE_URL cfg) as [[|]|]; discriminate Hj);
      inversion Hj; subst
  end.
  match goal with
  | Hd : download_media _ _ = (Ok _, _) |- _ =>
      apply download_media_ok in Hd;
      destruct Hd as (response & w & Hsend & _ & -> & _ & ->)
  end.
  match goal with
  | Hu : upload_media_to_strapi_4 _ _ _ = (Ok _, _) |- _ =>
      apply upload_media_ok in Hu;
      destruct Hu as (content & response2 & w2 & body & Hfile & _ & _ & _ & _ & ->)
  end.
  simpl in Hfile. rewrite file_lookup_written in Hfile. inversion Hfile; subst.
  exists url, response, w. simpl in *.
  repeat split; auto.
  - now rewrite <- app_assoc.
  - rewrite String.eqb_refl. simpl. apply file_lookup_remove.
Qed.

(* ================================================================= *)
(** ** Further properties: what the passes leave alone *)

Lemma handle_media_field_skips : forall e f v s,
  not_media v = true -> handle_media_field cfg e f v s = (Ok e, s).
Proof.
  intros e f v s H. unfold handle_media_field.
  destruct v; simpl in H; try reflexivity.
  - apply negb_true_iff in H. now rewrite H.
  - apply negb_true_iff in H. now rewrite H.
Qed.

Lemma map_relationships_field_skips : forall e f v s,
  str_in f (RELATIONSHIP_FIELDS cfg) = false \/ not_relationship v = true ->
  map_relationships_field cfg e f v s = (Ok e, s).
Proof.
  intros e f v s [H|H]; unfold map_relationships_field.
  - now rewrite H.
  - destruct (negb _); [reflexivity|].
    destruct v; simpl in H; try reflexivity.
    + destruct (all_contain_id l) as [[|]| |]; try discriminate H. reflexivity.
    + apply negb_true_iff in H. now rewrite H.
Qed.

Lemma for_items_frame : forall (body : dict -> string -> pyvalue -> M dict) field v,
  rewrites_own_field body ->
  (forall e s, body e field v s = (Ok e, s)) ->
  forall fields e s e' s',
    dict_get e field = Some v ->
    for_items body fields e s = (Ok e', s') ->
    dict_get e' field = Some v.
Proof.
  intros body field v Hloc Hskip fields e s e' s' Hget Hrun.
  eapply (for_items_inv body (fun x => dict_get x field = Some v));
    [ | exact Hget | exact Hrun].
  intros e0 f v0 t e1 t1 _ HI Hg Hb.
  destruct (string_dec f field) as [->|Hne].
  - rewrite HI in Hg. inversion Hg; subst v0.
    rewrite Hskip in Hb. inversion Hb; subst. assumption.
  - destruct (Hloc _ _ _ _ _ _ Hb) as [->|[new ->]]; auto.
    rewrite dict_get_set_other; auto.
Qed.

Lemma media_pass_skips : forall entry s entry' s' field v,
  handle_media_fields cfg entry s = (Ok entry', s') ->
  dict_get entry field = Some v ->
  not_media v = true ->
  dict_get entry' field = Some v.
Proof.
  intros entry s entry' s' field v Hrun Hget Hv.
  eapply for_items_frame; [ | | exact Hget | exact Hrun].
  - apply handle_media_field_local.
  - intros. now apply handle_media_field_skips.
Qed.

Lemma relationship_pass_skips : forall entry s entry' s' field v,
  map_relationships cfg entry s = (Ok entry', s') ->
  dict_get entry field = Some v ->
  str_in field (RELATIONSHIP_FIELDS cfg) = false \/ not_relationship v = true ->
  dict_get entry' field = Some v.
Proof.
  intros entry s entry' s' field v Hrun Hget Hv.
  eapply for_items_frame; [ | | exact Hget | exact Hrun].
  - apply map_relationships_field_local.
  - intros. now apply map_relationships_field_skips.
Qed.

(** X7.  The media pass is all or nothing on a field: a scalar, a mapping
    that has no non-empty [url], and a list in which even one element is
    not a media mapping come out of the pass exactly as they went in. *)
Theorem media_pass_keeps_what_is_not_media :
  forall entry s entry' s' field v,
    handle_media_fields cfg entry s = (Ok entry', s') ->
    dict_get entry field = Some v ->
    not_media v = true ->
    dict_get entry' field = Some v.
Proof. exact media_pass_skips. Qed.

(** X8.  The relationship pass is all or nothing on a field, configured
    or not: a scalar, a mapping without [id], and a list in which some
    element does not contain [id] come out of the pass exactly as they
    went in. *)
Theorem relationship_pass_keeps_what_is_no_reference :
  forall entry s entry' s' field v,
    map_relationships cfg entry s = (Ok entry', s') ->
    dict_get entry field = Some v ->
    not_relationship v = true ->
    dict_get entry' field = Some v.
Proof.
  intros. eapply relationship_pass_skips; eauto.
Qed.

(** *** Field names *)

Lemma keys_dict_set_present : forall d k v0 v,
  dict_get d k = Some v0 -> keys (dict_set d k v) = keys d.
Proof.
  induction d as [|[k0 w] d IH]; intros k v0 v H; simpl in *; [discriminate|].
  destruct (String.eqb k k0) eqn:E; simpl.
  - reflexivity.
  - f_equal. eauto.
Qed.

Lemma for_items_keys : forall (body : dict -> string -> pyvalue -> M dict),
  rewrites_own_field body ->
  forall fields e s e' s',
    for_items body fields e s = (Ok e', s') -> keys e' = keys e.
Proof.
  intros body Hloc fields e s e' s' Hrun.
  eapply (for_items_inv body (fun x => keys x = keys e));
    [ | reflexivity | exact Hrun].
  intros e0 f v t e1 t1 _ HI Hg Hb.
  destruct (Hloc _ _ _ _ _ _ Hb) as [->|[new ->]]; auto.
  now rewrite (keys_dict_set_present _ _ _ _ Hg).
Qed.

Lemma handle_components_field_local : rewrites_own_field (handle_components_field cfg).
Proof.
  intros e f v s e' s' H.
  apply handle_components_field_shape in H. destruct H as [|[_ ?]]; auto.
Qed.

Lemma handle_media_fields_keys : forall e s e' s',
  handle_media_fields cfg e s = (Ok e', s') -> keys e' = keys e.
Proof. intros. eapply for_items_keys; [apply handle_media_field_local | eassumption]. Qed.

Lemma map_relationships_keys : forall e s e' s',
  map_relationships cfg e s = (Ok e', s') -> keys e' = keys e.
Proof. intros. eapply for_items_keys; [apply map_relationships_field_local | eassumption]. Qed.

Lemma handle_components_keys : forall e token s e' s',
  handle_components cfg e token s = (Ok e', s') -> keys e' = keys e.
Proof. intros. eapply for_items_keys; [apply handle_components_field_local | eassumption]. Qed.

Lemma transform_entry_keys : forall e s e' s',
  transform_entry cfg e s = (Ok e', s') -> keys e' = keys e.
Proof.
  intros e s e' s' H. unfold transform_entry in H. run_inv.
  repeat match goal with
  | Hp : handle_media_fields _ _ _ = _ |- _ => apply handle_media_fields_keys in Hp
  | Hp : map_relationships _ _ _ = _ |- _ => apply map_relationships_keys in Hp
  | Hp : handle_components _ _ _ _ = _ |- _ => apply handle_components_keys in Hp
  end.
  congruence.
Qed.

(** X9.  The three passes of the transformer never add, drop, rename or
    reorder a field: the transformed entry has the field names of the
    entry it was made from, in the same order. *)
Theorem transform_entry_keeps_field_names :
  forall entry s payload s',
    transform_entry cfg entry s = (Ok payload, s') ->
    keys payload = keys entry.
Proof. exact transform_entry_keys. Qed.

Lemma keys_dict_set : forall d k v,
  keys (dict_set d k v) = if dict_mem d k then keys d else (keys d ++ [k])%list.
Proof.
  unfold dict_mem.
  induction d as [|[k0 w] d IH]; intros k v; simpl; [reflexivity|].
  destruct (String.eqb k k0) eqn:E; simpl; [reflexivity|].
  rewrite IH. destruct (dict_get d k); reflexivity.
Qed.

Lemma keys_dict_pop : forall d k,
  wf_dict d ->
  keys (dict_pop d k) = filter (fun x => negb (String.eqb x k)) (keys d).
Proof.
  unfold wf_dict.
  induction d as [|[k0 w] d IH]; intros k Hwf; simpl in *; [reflexivity|].
  inversion Hwf as [|? ? Hnin Hnd]; subst.
  rewrite (String.eqb_sym k0 k).
  destruct (String.eqb k k0) eqn:E; simpl.
  - apply String.eqb_eq in E. subst k0.
    clear IH Hwf Hnd. induction d as [|[k1 w1] d IH]; simpl in *; [reflexivity|].
    destruct (String.eqb k1 k) eqn:E1.
    + apply String.eqb_eq in E1. subst. tauto.
    + simpl. f_equal. apply IH. tauto.
  - f_equal. now apply IH.
Qed.

(** The fields the create stage keeps of a source entry. *)
Lemma strip_metadata_keys : forall d stripped,
  wf_dict d ->
  strip_metadata (VDict d) = Ok stripped ->
  keys stripped =
    filter (fun x => negb (String.eqb x "id") && negb (String.eqb x "created_at")
                     && negb (String.eqb x "updated_at"))
           (if dict_mem d "old_id" then keys d else (keys d ++ ["old_id"])%list).
Proof.
  intros d stripped Hwf H. unfold strip_metadata in H. simpl in H.
  destruct (dict_get d "id") as [id|]; [|discriminate].
  inversion H; subst; clear H.
  rewrite keys_dict_pop by (do 2 apply wf_dict_pop; now apply wf_dict_set).
  rewrite keys_dict_pop by (apply wf_dict_pop; now apply wf_dict_set).
  rewrite keys_dict_pop by (now apply wf_dict_set).
  rewrite keys_dict_set.
  generalize (if dict_mem d "old_id" then keys d else (keys d ++ ["old_id"])%list).
  intros l. induction l as [|x l IH]; simpl; [reflexivity|].
  destruct (String.eqb x "id"); simpl; [assumption|].
  destruct (String.eqb x "created_at"); simpl; [assumption|].
  destruct (String.eqb x "updated_at"); simpl; [assumption|].
  now f_equal.
Qed.

(** X10.  The fields of a payload are those of the source entry, in the
    source's order, without [id], [created_at] and [updated_at], and with
    [old_id], which goes last unless the entry had a field of that name
    already. *)
Theorem payload_field_names :
  forall d stripped s payload s',
    wf_dict d ->
    strip_metadata (VDict d) = Ok stripped ->
    transform_entry cfg stripped s = (Ok payload, s') ->
    keys payload =
      filter (fun x => negb (String.eqb x "id") && negb (String.eqb x "created_at")
                       && negb (String.eqb x "updated_at"))
             (if dict_mem d "old_id" then keys d else (keys d ++ ["old_id"])%list).
Proof.
  intros d stripped s payload s' Hwf Hstrip Hrun.
  rewrite (transform_entry_keys _ _ _ _ Hrun).
  now apply strip_metadata_keys.
Qed.

(* ================================================================= *)
(** ** Further properties: the passes one after the other *)

Lemma for_items_keeps_scalar : forall (body : dict -> string -> pyvalue -> M dict),
  rewrites_containers body ->
  forall fields e s e' s' k v,
    dict_get e k = Some v -> is_scalar v = true ->
    for_items body fields e s = (Ok e', s') ->
    dict_get e' k = Some v.
Proof.
  intros body Hshape fields e s e' s' k v Hget Hv Hrun.
  rewrite <- Hget. eapply for_items_keeps; eauto. now rewrite Hget.
Qed.

Lemma map_relationships_field_containers :
  rewrites_containers (map_relationships_field cfg).
Proof.
  intros e f v s e' s' Hb. apply map_relationships_field_shape in Hb.
  destruct Hb as [|(_ & ? & ?)]; auto.
Qed.

Lemma handle_components_field_containers :
  rewrites_containers (handle_components_field cfg).
Proof. intros e f v s e' s' Hb. now apply handle_components_field_shape in Hb. Qed.

(** X11.  In a transformed entry, a field that held one media mapping
    holds the identifier Media Transfer returned for it, provided that
    identifier is a scalar: the two later passes do not touch it. *)
Theorem transform_entry_media_field :
  forall entry s payload s' field d,
    wf_dict entry ->
    dict_get entry field = Some (VDict d) ->
    truthy (dict_get_none d "url") = true ->
    transform_entry cfg entry s = (Ok payload, s') ->
    exists s1 s2 id,
      grows is_transform_request s s1 /\
      transfer_media cfg (VDict d) s1 = (Ok id, s2) /\
      grows is_transform_request s2 s' /\
      (is_scalar id = true -> dict_get payload field = Some id).
Proof.
  intros entry s payload s' field d Hwf Hget Hurl Hrun.
  unfold transform_entry in Hrun. run_inv.
  match goal with
  | Hm : handle_media_fields _ _ _ = _, Hr : map_relationships _ _ _ = _,
    Hc : handle_components _ _ _ _ = _ |- _ =>
      rename Hm into Hmedia; rename Hr into Hrel; rename Hc into Hcomp
  end.
  destruct (for_items_at is_transform_request (handle_media_field cfg)
              handle_media_field_local
              (fun e f v => ltac:(unfold handle_media_field; sends_steps))
              (keys entry) entry _ _ _ field (VDict d) Hwf
              (dict_get_some_in _ _ _ Hget) Hget Hmedia)
    as (x1 & t1 & x2 & t2 & G1 & G2 & Hv & Hbody & Hfinal).
  pose proof (proj1 (map_relationships_sends _ _ _ _ Hrel)) as G3.
  pose proof (proj1 (handle_components_sends _ _ _ _ _ Hcomp)) as G4.
  unfold handle_media_field in Hbody. rewrite Hurl in Hbody. run_inv.
  rewrite dict_get_set_same in Hfinal.
  do 3 eexists. split; [exact G1|]. split; [eassumption|]. split.
  - eapply grows_trans; [exact G2|]. eapply grows_trans; eassumption.
  - intros Hs.
    eapply for_items_keeps_scalar;
      [apply handle_components_field_containers | | exact Hs | exact Hcomp].
    eapply for_items_keeps_scalar;
      [apply map_relationships_field_containers | exact Hfinal | exact Hs | exact Hrel].
Qed.

Lemma handle_component_connect : forall rids s,
  str_in "connect" (RELATIONSHIP_FIELDS cfg) = false ->
  handle_component cfg (connect rids) s = (Ok (connect rids), s).
Proof.
  intros rids s Hc. unfold handle_component, connect.
  assert (Hm : handle_media_fields cfg
                 [("connect", VList (map (fun rid => VDict [("id", rid)]) rids))] s =
               (Ok [("connect", VList (map (fun rid => VDict [("id", rid)]) rids))], s)).
  { unfold handle_media_fields. simpl.
    destruct rids as [|rid rids]; reflexivity. }
  rewrite (bind_run _ _ _ _ _ _ _ Hm).
  assert (Hr : map_relationships cfg
                 [("connect", VList (map (fun rid => VDict [("id", rid)]) rids))] s =
               (Ok [("connect", VList (map (fun rid => VDict [("id", rid)]) rids))], s)).
  { unfold map_relationships. simpl. unfold map_relationships_field.
    rewrite Hc. reflexivity. }
  rewrite (bind_run _ _ _ _ _ _ _ Hr). reflexivity.
Qed.

(** X12.  In a transformed entry, a configured relationship field that
    held one mapping with [id] X and no non-empty [url] holds
    [{connect: [{id: R}]}] for the R the resolver returned: the media pass
    leaves the mapping to the relationship pass, and the component descent
    leaves the directive as it is, as long as [connect] is not itself a
    configured relationship name. *)
Theorem transform_entry_relationship_field :
  forall entry s payload s' field d X,
    wf_dict entry ->
    str_in field (RELATIONSHIP_FIELDS cfg) = true ->
    str_in "connect" (RELATIONSHIP_FIELDS cfg) = false ->
    dict_get entry field = Some (VDict d) ->
    dict_get d "id" = Some X ->
    truthy (dict_get_none d "url") = false ->
    transform_entry cfg entry s = (Ok payload, s') ->
    exists s1 s2 R,
      grows is_transform_request s s1 /\
      fetch_related_id_in_strapi_4 cfg field X s1 = (Ok R, s2) /\
      grows is_transform_request s2 s' /\
      dict_get payload field = Some (VDict [("connect", VList [VDict [("id", R)]])]).
Proof.
  intros entry s payload s' field d X Hwf Hin Hconn Hget Hid Hurl Hrun.
  unfold transform_entry in Hrun. run_inv.
  match goal with
  | Hm : handle_media_fields _ entry _ = (Ok ?e1, ?t1),
    Hr : map_relationships _ _ _ = (Ok ?e2, ?t2),
    Hc : handle_components _ _ _ _ = _ |- _ =>
      assert (Hget1 : dict_get e1 field = Some (VDict d))
        by (eapply media_pass_skips; [exact Hm | exact Hget | simpl; now rewrite Hurl]);
      assert (Hwf1 : wf_dict e1)
        by (unfold wf_dict; rewrite (handle_media_fields_keys _ _ _ _ Hm); exact Hwf);
      assert (Hwf2 : wf_dict e2)
        by (unfold wf_dict; rewrite (map_relationships_keys _ _ _ _ Hr); exact Hwf1);
      pose proof (proj1 (handle_media_fields_sends _ _ _ _ Hm)) as G0;
      destruct (for_items_at is_transform_request (map_relationships_field cfg)
                  map_relationships_field_local
                  (fun e f v => ltac:(unfold map_relationships_field; sends_steps))
                  (keys e1) e1 _ _ _ field (VDict d) Hwf1
                  (dict_get_some_in _ _ _ Hget1) Hget1 Hr)
        as (x1 & u1 & x2 & u2 & G1 & G2 & Hv & Hbody & Hfinal);
      unfold map_relationships_field in Hbody; rewrite Hin in Hbody; simpl in Hbody;
      unfold dict_mem in Hbody; rewrite Hid in Hbody; run_inv;
      rewrite dict_get_set_same in Hfinal;
      destruct (for_items_at is_transform_request (handle_components_field cfg)
                  handle_components_field_local
                  (fun e f v => ltac:(unfold handle_components_field; sends_steps))
                  (keys e2) e2 _ _ _ field _ Hwf2
                  (dict_get_some_in _ _ _ Hfinal) Hfinal Hc)
        as (y1 & v1 & y2 & v2 & G3 & G4 & Hv' & Hbody' & Hfinal')
  end.
  match goal with
  | Hg : Ok X = Ok _ |- _ => inversion Hg; subst
  end.
  match type of Hbody' with
  | handle_components_field _ _ _ (connect ?rids) _ = _ =>
      assert (Hstep : handle_components_field cfg y1 field (connect rids) v1 =
                      (Ok (dict_set y1 field (connect rids)), v1))
        by (unfold handle_components_field; unfold connect at 1;
            fold (connect rids);
            now rewrite (bind_run _ _ _ _ _ _ _
                           (handle_component_connect rids v1 Hconn)))
  end.
  rewrite Hstep in Hbody'. inversion Hbody'; subst.
  rewrite dict_get_set_same in Hfinal'.
  do 3 eexists. split; [eapply grows_trans; [exact G0 | exact G1]|].
  split; [eassumption|]. split.
  - eapply grows_trans; [exact G2|]. eapply grows_trans; [exact G3 | exact G4].
  - exact Hfinal'.
Qed.

Lemma components_loop_descended : forall items s items' s',
  forallb is_dict items = true ->
  components_loop cfg items s = (Ok items', s') ->
  descended cfg items s items' s'.
Proof.
  induction items as [|item items IH]; intros s items' s' Hall H; simpl in *.
  - run_inv. constructor.
  - apply andb_prop in Hall. destruct Hall as [Hd Hall].
    destruct item; try discriminate Hd.
    run_inv. unfold handle_component in *. run_inv.
    econstructor; eauto.
Qed.

(** X13.  The component descent gives a field that holds one mapping the
    result of the media pass and then the relationship pass on that
    mapping, and a field that holds a list of mappings the list of those
    results, component by component in the order of the list. *)
Theorem component_descent_runs_both_passes :
  forall entry token s entry' s' field value,
    wf_dict entry ->
    dict_get entry field = Some value ->
    handle_components cfg entry token s = (Ok entry', s') ->
    (forall d,
        value = VDict d ->
        exists s1 d1 s2 d2 s3,
          handle_media_fields cfg d s1 = (Ok d1, s2) /\
          map_relationships cfg d1 s2 = (Ok d2, s3) /\
          dict_get entry' field = Some (VDict d2)) /\
    (forall items,
        value = VList items ->
        forallb is_dict items = true ->
        exists s1 items' s2,
          descended cfg items s1 items' s2 /\
          dict_get entry' field = Some (VList items') /\
          List.length items' = List.length items).
Proof.
  intros entry token s entry' s' field value Hwf Hget Hrun.
  destruct (for_items_at is_transform_request (handle_components_field cfg)
              handle_components_field_local
              (fun e f v => ltac:(unfold handle_components_field; sends_steps))
              (keys entry) entry s entry' s' field value Hwf
              (dict_get_some_in _ _ _ Hget) Hget Hrun)
    as (e1 & s1 & e2 & s2 & _ & _ & Hv & Hbody & Hfinal).
  unfold handle_components_field in Hbody. split.
  - intros d ->. unfold handle_component in Hbody. run_inv.
    rewrite Hfinal, dict_get_set_same. do 5 eexists. eauto.
  - intros items -> Hall. rewrite Hall in Hbody. run_inv.
    match goal with
    | Hl : components_loop _ _ _ = _ |- _ =>
        apply components_loop_descended in Hl; [|exact Hall]
    end.
    rewrite Hfinal, dict_get_set_same. do 3 eexists.
    split; [eassumption|]. split; [reflexivity|].
    match goal with
    | Hd : descended _ _ _ _ _ |- _ => clear - Hd; induction Hd; simpl; auto
    end.
Qed.

(** X14.  The descent stops after one level.  Take a field of the entry
    that holds a mapping which is neither media nor a relationship, hence
    a component, and inside it a value that is itself neither media nor,
    under its own name, a relationship: in the transformed entry that
    inner value is exactly what it was, whatever media or references it
    holds further down. *)
Theorem descent_is_one_level_deep :
  forall entry s payload s' field d inner v,
    wf_dict entry ->
    dict_get entry field = Some (VDict d) ->
    truthy (dict_get_none d "url") = false ->
    str_in field (RELATIONSHIP_FIELDS cfg) = false \/ dict_mem d "id" = false ->
    dict_get d inner = Some v ->
    not_media v = true ->
    str_in inner (RELATIONSHIP_FIELDS cfg) = false \/ not_relationship v = true ->
    transform_entry cfg entry s = (Ok payload, s') ->
    exists d',
      dict_get payload field = Some (VDict d') /\
      dict_get d' inner = Some v.
Proof.
  intros entry s payload s' field d inner v Hwf Hget Hurl Hrel Hinner Hnm Hnr Hrun.
  unfold transform_entry in Hrun. run_inv.
  match goal with
  | Hm : handle_media_fields _ entry _ = (Ok ?e1, ?t1),
    Hr : map_relationships _ _ _ = (Ok ?e2, ?t2),
    Hc : handle_components _ _ _ _ = _ |- _ =>
      assert (Hget1 : dict_get e1 field = Some (VDict d))
        by (eapply media_pass_skips; [exact Hm | exact Hget | simpl; now rewrite Hurl]);
      assert (Hget2 : dict_get e2 field = Some (VDict d))
        by (eapply relationship_pass_skips; [exact Hr | exact Hget1 |];
            destruct Hrel as [Hrel|Hrel]; [now left | right; simpl; now rewrite Hrel]);
      assert (Hwf2 : wf_dict e2)
        by (unfold wf_dict;
            rewrite (map_relationships_keys _ _ _ _ Hr),
                    (handle_media_fields_keys _ _ _ _ Hm); exact Hwf);
      destruct (for_items_at is_transform_request (handle_components_field cfg)
                  handle_components_field_local
                  (fun e f v => ltac:(unfold handle_components_field; sends_steps))
                  (keys e2) e2 _ _ _ field _ Hwf2
                  (dict_get_some_in _ _ _ Hget2) Hget2 Hc)
        as (y1 & v1 & y2 & v2 & _ & _ & _ & Hbody & Hfinal)
  end.
  unfold handle_components_field, handle_component in Hbody. run_inv.
  rewrite dict_get_set_same in Hfinal.
  eexists. split; [exact Hfinal|].
  match goal with
  | Hm : handle_media_fields _ d _ = _, Hr : map_relationships _ _ _ = (Ok ?d2, _) |- _ =>
      eapply relationship_pass_skips; [exact Hr | | exact Hnr];
      eapply media_pass_skips; [exact Hm | exact Hinner | exact Hnm]
  end.
Qed.

(* ================================================================= *)
(** ** Further properties: the stages in a run *)

Lemma send_log : forall r s o s',
  send r s = (o, s') ->
  log s' = (log s ++ [r])%list /\ out s' = out s /\ files s' = files s.
Proof.
  unfold send. intros r s o s' H.
  destruct (http_send r (world s)) as [[response|] w]; inversion H; subst; auto.
Qed.

Lemma get_strapi_3_token_log : forall s r s',
  get_strapi_3_token cfg s = (r, s') ->
  log s' = (log s ++ [PostLogin (fstr (STRAPI_3_BASE_URL cfg) ++ "/admin/login")
                                (env_json (STRAPI_3_EMAIL cfg))
                                (env_json (STRAPI_3_PASSWORD cfg))])%list.
Proof.
  intros s r s' H. unfold get_strapi_3_token in H.
  apply bind_cases in H.
  destruct H as [(response & s1 & Hsend & H)|[(e & Hsend & _)|(Hsend & _)]];
    try (apply send_log in Hsend; tauto).
  apply send_log in Hsend. destruct Hsend as (Hl & _).
  rewrite <- Hl. clear Hl.
  assert (Hs : sends_only (fun _ => false)
                 (raise_for_status response ;;;
                  body <- response_json response ;;
                  data <- lift (getitem body "data") ;;
                  lift (getitem data "token"))) by sends_steps.
  destruct (Hs _ _ _ H) as [([|x l] & Hlog & Hf) _]; [|discriminate Hf].
  rewrite Hlog. apply app_nil_r.
Qed.

Lemma fetch_loop_grows : forall fuel model token entries page s r s',
  fetch_loop cfg fuel model token entries page s = (r, s') ->
  grows is_page_request s s'.
Proof.
  induction fuel as [|fuel IH]; intros model token entries page s r s' H; simpl in H.
  - inversion H; subst. apply grows_refl.
  - apply bind_cases in H.
    destruct H as [(response & s1 & Hsend & H)|[(e & Hsend & _)|(Hsend & _)]];
      try (apply send_log in Hsend; destruct Hsend as (Hl & _);
           exists [GetPage (fstr (STRAPI_3_BASE_URL cfg) ++ "/" ++ fstr model) token
                           (BATCH_SIZE cfg) ((page - 1) * BATCH_SIZE cfg)];
           split; [exact Hl | reflexivity]).
    apply send_log in Hsend. destruct Hsend as (Hl & _).
    assert (G1 : grows is_page_request s s1)
      by (eexists; split; [exact Hl | reflexivity]).
    eapply grows_trans; [exact G1|]. clear G1 Hl.
    rewrite bind_print in H.
    set (s2 := mkState (world s1) (log s1) (out s1 ++ [MsgFetchingPage page]) (files s1)) in *.
    assert (G2 : grows is_page_request s1 s2)
      by (exists []; simpl; now rewrite app_nil_r).
    eapply grows_trans; [exact G2|]. clear G2.
    unfold bind at 1, raise_for_status in H.
    destruct ((400 <=? status_code response) && (status_code response <? 600))%bool;
      [inversion H; subst; apply grows_refl|].
    unfold ret at 1, bind at 1, response_json in H.
    destruct (json response) as [data|]; [|inversion H; subst; apply grows_refl].
    unfold ret at 1 in H.
    destruct (negb (truthy data)); [inversion H; subst; apply grows_refl|].
    unfold bind at 1, lift at 1 in H.
    destruct (py_iter data) as [more| |]; try (inversion H; subst; apply grows_refl).
    eapply IH; eassumption.
Qed.

(** X15.  Whatever way a run ends, its requests come in this order: the
    one login, then page requests only, then only what the create stage
    sends (downloads, uploads, lookups, creations); no page is asked for
    once the first entry is being created. *)
Theorem run_sends_login_then_pages_then_creations :
  forall fuel s r s',
    main cfg fuel s = (r, s') ->
    exists l_pages l_create,
      log s' =
        (log s ++
         PostLogin (fstr (STRAPI_3_BASE_URL cfg) ++ "/admin/login")
                   (env_json (STRAPI_3_EMAIL cfg)) (env_json (STRAPI_3_PASSWORD cfg))
         :: l_pages ++ l_create)%list /\
      forallb is_page_request l_pages = true /\
      forallb is_create_stage_request l_create = true.
Proof.
  intros fuel s r s' H. unfold main in H. rewrite bind_print in H.
  apply bind_cases in H.
  destruct H as [(token & s1 & Htok & H)|[(e & Htok & _)|(Htok & _)]];
    try (apply get_strapi_3_token_log in Htok; rename Htok into Hl;
         exists [], []; simpl in *; rewrite Hl; auto).
  apply get_strapi_3_token_log in Htok. rename Htok into Hl1. simpl in Hl1.
  rewrite bind_print in H. apply bind_cases in H.
  destruct H as [(entries & s2 & Hfetch & H)|[(e & Hfetch & _)|(Hfetch & _)]];
    try (apply fetch_loop_grows in Hfetch; destruct Hfetch as (lp & Hlp & Hfp);
         exists lp, []; simpl in *; rewrite Hlp, Hl1, app_nil_r, <- app_assoc; auto).
  apply fetch_loop_grows in Hfetch. destruct Hfetch as (lp & Hlp & Hfp). simpl in Hlp.
  rewrite !bind_print in H. apply bind_cases in H.
  assert (Hc : forall rc sc,
             create_entries_in_strapi_4 cfg (STRAPI_4_MODEL cfg) entries
               (mkState (world s2) (log s2)
                        ((out s2 ++ [MsgFetched (List.length entries)]) ++ [MsgCreating])
                        (files s2)) = (rc, sc) ->
             exists lc,
               log sc =
                 (log s ++
                  PostLogin (fstr (STRAPI_3_BASE_URL cfg) ++ "/admin/login")
                            (env_json (STRAPI_3_EMAIL cfg))
                            (env_json (STRAPI_3_PASSWORD cfg)) :: lp ++ lc)%list /\
               forallb is_create_stage_request lc = true).
  { intros rc sc Hrun. apply create_entries_requests in Hrun.
    destruct Hrun as (lc & Hlc & Hfc & _). exists lc. split; auto.
    rewrite Hlc. simpl. rewrite Hlp, Hl1, <- !app_assoc. reflexivity. }
  destruct H as [(u & s3 & Hcreate & H)|[(e & Hcreate & _)|(Hcreate & _)]].
  - destruct (Hc _ _ Hcreate) as (lc & Hlc & Hfc).
    inversion H; subst. exists lp, lc. simpl. auto.
  - destruct (Hc _ _ Hcreate) as (lc & Hlc & Hfc). exists lp, lc. auto.
  - destruct (Hc _ _ Hcreate) as (lc & Hlc & Hfc). exists lp, lc. auto.
Qed.

(** X16.  When the source answers the login with an error status, the run
    ends there with the HTTP error: it has sent the login and nothing
    else, and has printed its first line only. *)
Theorem run_stops_at_a_refused_login :
  forall fuel s response w,
    http_send (PostLogin (fstr (STRAPI_3_BASE_URL cfg) ++ "/admin/login")
                         (env_json (STRAPI_3_EMAIL cfg)) (env_json (STRAPI_3_PASSWORD cfg)))
              (world s) = (Some response, w) ->
    ~ passes_status response ->
    main cfg fuel s =
      (Raise HTTPError,
       mkState w
         (log s ++ [PostLogin (fstr (STRAPI_3_BASE_URL cfg) ++ "/admin/login")
                              (env_json (STRAPI_3_EMAIL cfg))
                              (env_json (STRAPI_3_PASSWORD cfg))])
         (out s ++ [MsgAuthenticating]) (files s)).
Proof.
  intros fuel s response w Hsend Hst. unfold main. rewrite bind_print.
  unfold get_strapi_3_token.
  erewrite bind_raise; [reflexivity|].
  erewrite bind_run by (apply send_some; exact Hsend).
  unfold bind, raise_for_status. unfold passes_status in Hst.
  destruct ((400 <=? status_code response) && (status_code response <? 600))%bool;
    [reflexivity | now elim Hst].
Qed.

(** X17.  When the source admits the account but answers page requests
    with an error status, the run ends with the HTTP error after one page
    request, and no creation request is sent: nothing fetched, nothing
    migrated. *)
Theorem run_stops_at_a_refused_page :
  forall fuel s,
    source_admits cfg ->
    (forall url token limit start w,
        exists response w',
          http_send (GetPage url token limit start) w = (Some response, w') /\
          ~ passes_status response) ->
    (1 <= fuel)%nat ->
    exists s' l,
      main cfg fuel s = (Raise HTTPError, s') /\
      log s' = (log s ++ l)%list /\
      page_requests l = 1%nat /\
      creation_requests l = 0%nat.
Proof.
  intros fuel s Hadm Hpages Hfuel. unfold main. rewrite bind_print.
  match goal with
  | |- context [bind (get_strapi_3_token cfg) _ ?s0] =>
      destruct (Hadm s0) as (token & s1 & Htok)
  end.
  rewrite (bind_run _ _ _ _ _ _ _ Htok), bind_print.
  apply get_strapi_3_token_log in Htok. rename Htok into Hl1. simpl in Hl1.
  destruct fuel as [|fuel]; [lia|].
  unfold fetch_entries_from_strapi_3. simpl fetch_loop.
  match goal with
  | |- context [send ?rq] =>
      match rq with
      | GetPage ?url ?tok ?lim ?st =>
          destruct (Hpages url tok lim st (world s1)) as (response & w & Hsend & Hst)
      end
  end.
  eexists. eexists. split.
  - erewrite bind_raise; [reflexivity|].
    erewrite bind_run by (apply send_some; exact Hsend).
    rewrite bind_print.
    unfold bind, raise_for_status. unfold passes_status in Hst.
    destruct ((400 <=? status_code response) && (status_code response <? 600))%bool;
      [reflexivity | now elim Hst].
  - simpl. rewrite Hl1, <- app_assoc. simpl. repeat split.
Qed.

(** X18.  The fetch loop has no bound of its own: against a source that
    answers every page request with at least one entry it never ends.
    Whatever the fuel, the model spends all of it on page requests. *)
Theorem fetch_never_ends_on_an_endless_source :
  forall model token,
    (forall url tok limit start w,
        exists response w' x xs,
          http_send (GetPage url tok limit start) w = (Some response, w') /\
          passes_status response /\
          json response = Some (VList (x :: xs))) ->
    forall fuel s,
      exists s',
        fetch_entries_from_strapi_3 cfg fuel model token s = (OutOfFuel, s') /\
        page_requests (log s') = (page_requests (log s) + fuel)%nat.
Proof.
  intros model token Hsrc fuel. unfold fetch_entries_from_strapi_3.
  generalize (@nil pyvalue) as entries. generalize 1 as page.
  induction fuel as [|fuel IH]; intros page entries s; simpl fetch_loop.
  - eexists. split; [reflexivity|]. lia.
  - destruct (Hsrc (fstr (STRAPI_3_BASE_URL cfg) ++ "/" ++ fstr model) token
                   (BATCH_SIZE cfg) ((page - 1) * BATCH_SIZE cfg) (world s))
      as (response & w & x & xs & Hsend & Hst & Hjson).
    rewrite (bind_run _ _ _ _ _ _ _ (send_some _ _ _ _ Hsend)), bind_print.
    unfold bind at 1, raise_for_status. red in Hst. rewrite Hst. unfold ret at 1.
    unfold bind at 1, response_json. rewrite Hjson. unfold ret at 1.
    change (negb (truthy (VList (x :: xs)))) with false. cbv beta iota.
    unfold bind at 1, lift at 1, py_iter.
    match goal with
    | |- exists _, fetch_loop cfg fuel model token ?es ?pg ?st = _ /\ _ =>
        destruct (IH pg es st) as (s' & Hrun & Hcount)
    end.
    exists s'. split; [exact Hrun|].
    rewrite Hcount. simpl log. unfold page_requests.
    rewrite filter_app, length_app. simpl. lia.
Qed.

(** X19.  A failure while an entry is transformed is not caught: the
    stage ends with that failure, and neither the entry nor any of the
    entries after it gets a creation request. *)
Theorem transform_failure_aborts_the_stage :
  forall model entry rest s stripped e s1,
    strip_metadata entry = Ok stripped ->
    transform_entry cfg stripped s = (Raise e, s1) ->
    create_entries_in_strapi_4 cfg model (entry :: rest) s = (Raise e, s1) /\
    exists l, log s1 = (log s ++ l)%list /\ creation_requests l = 0%nat.
Proof.
  intros model entry rest s stripped e s1 Hstrip Ht. split.
  - simpl. unfold bind at 1, lift at 1. rewrite Hstrip.
    now rewrite (bind_raise _ _ _ _ _ _ _ Ht).
  - destruct (transform_entry_sends _ _ _ _ Ht) as [(l & Hl & Hf) _].
    exists l. split; [exact Hl|]. unfold creation_requests.
    rewrite (filter_none is_transform_request is_creation_request l); auto.
    intros []; simpl; congruence.
Qed.

Lemma all_contain_id_raises : forall items e,
  all_contain_id items = Raise e -> e = TypeError.
Proof.
  induction items as [|v items IH]; intros e H; simpl in H; [discriminate|].
  destruct (contains_id v) as [[|]| |] eqn:E; try discriminate; auto.
  inversion H; subst. destruct v; simpl in E; congruence.
Qed.

(** X20.  The relationship pass tests membership, not shape.  On a
    configured field that holds a list whose first element is not a
    mapping, the field's turn raises [TypeError] without sending anything,
    unless the membership test itself turns out false (then the field is
    left alone): a number has no [in], and a string or a list that
    contains [id] passes the test and fails at the subscript. *)
Theorem relationship_list_of_non_mappings_raises :
  forall entry field v rest s,
    str_in field (RELATIONSHIP_FIELDS cfg) = true ->
    is_dict v = false ->
    all_contain_id (v :: rest) <> Ok false ->
    map_relationships_field cfg entry field (VList (v :: rest)) s = (Raise TypeError, s).
Proof.
  intros entry field v rest s Hin Hv Hall. unfold map_relationships_field.
  rewrite Hin.
  pose proof (all_contain_id_ends (v :: rest)) as Hends.
  destruct (all_contain_id (v :: rest)) as [[|]| e|] eqn:E.
  - change (negb true) with false. cbv iota.
    unfold bind at 1, lift at 1. simpl related_ids_of.
    unfold bind at 1. unfold bind at 1, lift at 1.
    destruct v; try discriminate Hv; reflexivity.
  - now elim Hall.
  - apply all_contain_id_raises in E. subst. reflexivity.
  - now elim Hends.
Qed.

End Verification.

(* ================================================================= *)
(** ** The default relationship fields *)

(** C8.  With [RELATIONSHIP_FIELDS] unset, the configured list is not
    empty: splitting the empty string gives the one name [""], so a field
    with the empty name is taken for a relationship, looked up under the
    model [""] and rewritten. *)
Theorem unset_relationship_fields_hold_the_empty_name :
  relationship_fields_of_env None = [""] /\
  str_in "" (relationship_fields_of_env None) = true /\
  map_relationships (demo_config (relationship_fields_of_env None))
                    [("", VDict [("id", VInt 9)])] demo_start =
    (Ok [("", VDict [("connect", VList [VDict [("id", VInt 42)]])])],
     mkState 0%nat [GetRelated "http://new/api/s" "Bearer key" (VInt 9)] [] []).
Proof. repeat split. Qed.

(* ================================================================= *)
(** ** Where the code departs from a claim *)

Lemma demo_source_holds : source_holds demo_entries.
Proof.
  intros url token limit start w Hl Hs.
  eexists. eexists. repeat split.
Qed.

Lemma demo_source_admits : forall fields, source_admits (demo_config fields).
Proof. intros fields s. eexists. eexists. reflexivity. Qed.

(** C3 as stated fails: three entries in pages of ten take two page
    requests, and ceil((3+1)/10) is one. *)
Lemma fetch_stage_not_ceil_of_successor :
  ~ (forall (World : Type) (platform : Platform World) (cfg : config)
            (src : list pyvalue) (model : option string) (token : pyvalue)
            (fuel : nat) (s s' : state World),
        source_holds src ->
        0 < BATCH_SIZE cfg ->
        fetch_entries_from_strapi_3 cfg fuel model token s = (Ok src, s') ->
        page_requests (log s') =
          (page_requests (log s) +
           ceil_div (List.length src + 1) (Z.to_nat (BATCH_SIZE cfg)))%nat).
Proof.
  intros H.
  specialize (H nat demo_platform (demo_config []) demo_entries
                (Some "articles") (VStr "jwt") 5%nat demo_start
                (snd (fetch_entries_from_strapi_3 (demo_config []) 5 (Some "articles")
                                                  (VStr "jwt") demo_start))
                demo_source_holds eq_refl eq_refl).
  vm_compute in H. discriminate H.
Qed.

(** C5 as stated fails: when the destination answers the lookup with an
    error status, the resolver neither returns an identifier nor fails
    with the not-found error. *)
Lemma resolver_has_a_third_outcome :
  ~ (forall (World : Type) (platform : Platform World) (cfg : config)
            (model : string) (old_id : pyvalue) (s : state World),
        (exists id, fst (fetch_related_id_in_strapi_4 cfg model old_id s) = Ok id) \/
        (exists x, fst (fetch_related_id_in_strapi_4 cfg model old_id s) =
                   Raise (ValueError x))).
Proof.
  intros H.
  destruct (H unit down_platform (demo_config []) "author" (VInt 9)
              (mkState tt [] [] [])) as [(id & Hid)|(x & Hx)].
  - vm_compute in Hid. discriminate Hid.
  - vm_compute in Hx. discriminate Hx.
Qed.

(** C6 as stated fails: a creation answered 204, a 2xx status, is reported
    as failed. *)
Lemma status_204_is_reported_failed :
  ~ (forall (World : Type) (platform : Platform World) (cfg : config)
            (model : option string) (payload : dict) (s : state World)
            (response : response) (w : World),
        http_send (PostCreate (fstr (STRAPI_4_BASE_URL cfg) ++ "/api/" ++ fstr model)
                              (HEADERS_4 cfg) (VDict [("data", VDict payload)]))
                  (world s) = (Some response, w) ->
        200 <= status_code response < 300 ->
        out (snd (submit_entry cfg model payload s)) =
          (out s ++ [MsgSuccess (VDict payload)])%list).
Proof.
  intros H.
  specialize (H nat demo_platform (demo_config []) (Some "articles")
                [("title", VStr "B"); ("old_id", VInt 6)] demo_start
                (mkResponse 204 "body" (Some VNone)) 0%nat eq_refl ltac:(simpl; lia)).
  vm_compute in H. discriminate H.
Qed.

Lemma orphan_source_holds : @source_holds nat orphan_platform orphan_entries.
Proof.
  intros url token limit start w Hl Hs.
  eexists. eexists. repeat split.
Qed.

Lemma orphan_source_admits :
  @source_admits nat orphan_platform (demo_config ["author"]).
Proof. intros s. eexists. eexists. reflexivity. Qed.

(** C9 as stated fails: a source that admits the account and holds three
    entries, with pages of ten, gets its two page requests, but when the
    first entry names an author the destination does not have, the run
    stops at that lookup and no creation request is sent at all. *)
Lemma three_entries_need_not_give_three_creations :
  ~ (forall (World : Type) (platform : Platform World) (cfg : config)
            (e1 e2 e3 : pyvalue) (fuel : nat) (s : state World) r s',
        source_admits cfg ->
        source_holds [e1; e2; e3] ->
        BATCH_SIZE cfg = 10 ->
        (2 <= fuel)%nat ->
        main cfg fuel s = (r, s') ->
        page_requests (log s') = (page_requests (log s) + 2)%nat /\
        creation_requests (log s') = (creation_requests (log s) + 3)%nat).
Proof.
  intros H.
  destruct (H nat orphan_platform (demo_config ["author"])
              (VDict [("id", VInt 5); ("author", VDict [("id", VInt 3)])])
              (VDict [("id", VInt 6); ("title", VStr "B")])
              (VDict [("id", VInt 8); ("title", VStr "C")])
              2%nat demo_start
              (Raise (ValueError (VInt 3)))
              (snd (@main nat orphan_platform (demo_config ["author"]) 2 demo_start))
              orphan_source_admits orphan_source_holds eq_refl (le_n 2) eq_refl)
    as [_ Hcreate].
  vm_compute in Hcreate. discriminate Hcreate.
Qed.

(* ================================================================= *)
(** ** The theorems at work on the demo servers *)


Lemma relationship_pass_connects_witness :
  let cfg := demo_config ["author"; "tags"] in
  let entry' :=
    [("author", VDict [("connect", VList [VDict [("id", VInt 42)]])]);
     ("editor", VDict [("id", VInt 7)]);
     ("tags", VDict [("connect", VList [VDict [("id", VInt 40)]; VDict [("id", VInt 42)]])]);
     ("links", VList [])] in
  let s' := snd (map_relationships cfg demo_related_entry demo_start) in
  (exists s1 s2 R,
      grows is_transform_request demo_start s1 /\
      grows is_transform_request s2 s' /\
      fetch_related_id_in_strapi_4 cfg "author" (VInt 9) s1 = (Ok R, s2) /\
      dict_get entry' "author" = Some (VDict [("connect", VList [VDict [("id", R)]])])) /\
  (exists s1 s2 rids,
      grows is_transform_request demo_start s1 /\
      grows is_transform_request s2 s' /\
      resolved cfg "tags" [VDict [("id", VInt 7)]; VDict [("id", VInt 9)]] s1 rids s2 /\
      dict_get entry' "tags" =
        Some (VDict [("connect", VList (map (fun rid => VDict [("id", rid)]) rids))]) /\
      List.length rids = 2%nat).
Proof.
  intros cfg entry' s'.
  assert (Hwf : wf_dict demo_related_entry)
    by (repeat constructor; simpl; intuition discriminate).
  assert (Hrun : map_relationships cfg demo_related_entry demo_start = (Ok entry', s'))
    by (vm_compute; reflexivity).
  split.
  - refine (proj1 (relationship_pass_connects cfg demo_related_entry demo_start entry' s'
                     "author" (VDict [("id", VInt 9)]) Hwf eq_refl eq_refl Hrun)
                  [("id", VInt 9)] (VInt 9) eq_refl eq_refl).
  - refine (proj2 (relationship_pass_connects cfg demo_related_entry demo_start entry' s'
                     "tags" (VList [VDict [("id", VInt 7)]; VDict [("id", VInt 9)]])
                     Hwf eq_refl eq_refl Hrun)
                  [VDict [("id", VInt 7)]; VDict [("id", VInt 9)]] eq_refl _).
    repeat constructor; eexists; (split; reflexivity).
Defined.

Lemma fetch_stage_page_requests_witness :
  exists s' l,
    fetch_entries_from_strapi_3 (demo_config []) 5 (Some "articles") (VStr "jwt")
                                demo_start = (Ok demo_entries, s') /\
    log s' = (log demo_start ++ l)%list /\
    l = map (fun i => GetPage "http://old/articles" (VStr "jwt") 10 (Z.of_nat i * 10))
            (seq 0 (ceil_div 3 10 + 1)) /\
    page_requests l = (ceil_div 3 10 + 1)%nat /\
    (forall i, page_of demo_entries 10 (Z.of_nat i * 10) = [] <->
               (ceil_div 3 10 <= i)%nat).
Proof.
  apply (fetch_stage_page_requests (demo_config []) demo_entries (Some "articles")
           (VStr "jwt") 5%nat demo_start demo_source_holds).
  - reflexivity.
  - vm_compute. lia.
Defined.

Lemma create_stage_keeps_old_id_witness :
  exists l payloads,
    log (snd (create_entries_in_strapi_4 (demo_config []) (Some "articles")
                                         demo_entries demo_start)) =
      (log demo_start ++ l)%list /\
    submitted l = map (fun payload => VDict [("data", VDict payload)]) payloads /\
    Forall2 carries_old_id (firstn (List.length payloads) demo_entries) payloads /\
    (Ok tt = Ok tt -> List.length payloads = List.length demo_entries).
Proof.
  apply (create_stage_keeps_old_id (demo_config []) (Some "articles") demo_entries
           demo_start (Ok tt)).
  - repeat constructor; eexists; eexists;
      (split; [reflexivity |
       split; [repeat constructor; simpl; intuition discriminate |
       split; reflexivity]]).
  - vm_compute. reflexivity.
Defined.

Lemma resolver_first_match_or_not_found_witness :
  let run := fetch_related_id_in_strapi_4 (demo_config []) "author" (VInt 9) demo_start in
  log (snd run) =
    (log demo_start ++ [GetRelated "http://new/api/authors" "Bearer key" (VInt 9)])%list /\
  (forall first rest,
      [VDict [("id", VInt 42)]; VDict [("id", VInt 43)]] = first :: rest ->
      exists id, getitem first "id" = Ok id /\ fst run = Ok id) /\
  ((exists x, fst run = Raise (ValueError x)) <->
   [VDict [("id", VInt 42)]; VDict [("id", VInt 43)]] = []) /\
  ((exists id, fst run = Ok id) \/ fst run = Raise (ValueError (VInt 9))).
Proof.
  pose proof (resolver_first_match_or_not_found (demo_config []) "author" (VInt 9)
                demo_start
                (mkResponse 200 "" (Some (VDict [("data", VList (demo_related (VInt 9)))])))
                0%nat eq_refl) as H.
  destruct H as (Hlog & _ & H).
  split; [exact Hlog|].
  apply (H (VDict [("data", VList (demo_related (VInt 9)))])
           [VDict [("id", VInt 42)]; VDict [("id", VInt 43)]]).
  - reflexivity.
  - reflexivity.
  - reflexivity.
  - repeat constructor; eexists; eexists; (split; reflexivity).
Defined.

Lemma create_failure_is_reported_and_skipped_witness :
  create_entries_in_strapi_4 (demo_config []) (Some "articles")
    [VDict [("id", VInt 8); ("title", VStr "C")];
     VDict [("id", VInt 5); ("title", VStr "A")]] demo_start =
  create_entries_in_strapi_4 (demo_config []) (Some "articles")
    [VDict [("id", VInt 5); ("title", VStr "A")]]
    (mkState 0%nat
       [PostCreate "http://new/api/articles" "Bearer key"
          (VDict [("data", VDict [("title", VStr "C"); ("old_id", VInt 8)])])]
       [MsgFailed (VDict [("title", VStr "C"); ("old_id", VInt 8)]); MsgResponse "body"]
       []).
Proof.
  apply (create_failure_is_reported_and_skipped (demo_config []) (Some "articles")
           (VDict [("id", VInt 8); ("title", VStr "C")])
           [VDict [("id", VInt 5); ("title", VStr "A")]] demo_start
           [("title", VStr "C"); ("old_id", VInt 8)]
           [("title", VStr "C"); ("old_id", VInt 8)]
           demo_start (mkResponse 500 "body" (Some VNone)) 0%nat).
  - reflexivity.
  - reflexivity.
  - reflexivity.
Defined.

Lemma relationship_pass_frame_witness :
  dict_get [("author", VDict [("connect", VList [VDict [("id", VInt 42)]])]);
            ("editor", VDict [("id", VInt 7)]);
            ("tags", VList [VDict [("id", VInt 7)]; VDict [("id", VInt 9)]]);
            ("links", VList [])] "editor" =
  dict_get demo_related_entry "editor".
Proof.
  apply (relationship_pass_frame (demo_config ["author"]) demo_related_entry demo_start
           _ (snd (map_relationships (demo_config ["author"]) demo_related_entry
                                     demo_start)) "editor").
  - reflexivity.
  - vm_compute. reflexivity.
Defined.

Lemma three_entries_two_pages_three_creations_witness :
  exists l token,
    log (snd (main (demo_config []) 2 demo_start)) = (log demo_start ++ l)%list /\
    filter is_page_request l =
      [GetPage "http://old/articles" token 10 0;
       GetPage "http://old/articles" token 10 10] /\
    page_requests l = 2%nat /\
    page_of demo_entries 10 0 = demo_entries /\
    page_of demo_entries 10 10 = [] /\
    Ok tt <> @OutOfFuel unit /\
    (creation_requests l <= 3)%nat /\
    (Ok tt = Ok tt -> creation_requests l = 3%nat) /\
    (@destination_answers nat demo_platform ->
     plain_entry (VDict [("id", VInt 5); ("title", VStr "A"); ("created_at", VStr "2020")]) ->
     plain_entry (VDict [("id", VInt 6); ("title", VStr "B"); ("updated_at", VStr "2021")]) ->
     plain_entry (VDict [("id", VInt 8); ("title", VStr "C")]) ->
     Ok tt = Ok tt).
Proof.
  apply (three_entries_two_pages_three_creations (demo_config [])
           (VDict [("id", VInt 5); ("title", VStr "A"); ("created_at", VStr "2020")])
           (VDict [("id", VInt 6); ("title", VStr "B"); ("updated_at", VStr "2021")])
           (VDict [("id", VInt 8); ("title", VStr "C")])
           2%nat demo_start (Ok tt)
           (snd (main (demo_config []) 2 demo_start))
           (demo_source_admits []) demo_source_holds eq_refl).
  - lia.
  - vm_compute. reflexivity.
Defined.

Lemma relationship_pass_empty_list_witness :
  let cfg := demo_config ["links"] in
  map_relationships_field cfg demo_related_entry "links" (VList []) demo_start =
    (Ok (dict_set demo_related_entry "links" (VDict [("connect", VList [])])),
     demo_start) /\
  dict_get [("author", VDict [("id", VInt 9)]);
            ("editor", VDict [("id", VInt 7)]);
            ("tags", VList [VDict [("id", VInt 7)]; VDict [("id", VInt 9)]]);
            ("links", VDict [("connect", VList [])])] "links" =
    Some (VDict [("connect", VList [])]).
Proof.
  intros cfg.
  pose proof (@relationship_pass_empty_list nat demo_platform cfg "links" eq_refl)
    as [Hstep Hpass].
  split.
  - apply Hstep.
  - apply (Hpass demo_related_entry demo_start _ demo_start).
    + repeat constructor; simpl; intuition discriminate.
    + reflexivity.
    + vm_compute. reflexivity.
Defined.

(* ================================================================= *)
(** ** The further properties at work *)

Lemma download_media_success_witness :
  exists response w,
    http_send (GetMediaFile "http://old/a/b.png") (world demo_start) = (Some response, w) /\
    passes_status response /\
    "b.png" = file_name_of "http://old/a/b.png" /\
    "b.png" <> "" /\
    occurs "/" "b.png" = false /\
    snd (download_media "http://old/a/b.png" demo_start) =
      mkState w (log demo_start ++ [GetMediaFile "http://old/a/b.png"]) (out demo_start)
              (("b.png", text response) :: file_remove "b.png" (files demo_start)).
Proof.
  apply (download_media_success "http://old/a/b.png" demo_start "b.png"
           (snd (download_media "http://old/a/b.png" demo_start))).
  vm_compute. reflexivity.
Defined.

Lemma download_media_failure_witness :
  let s' := snd (@download_media nat cut_platform "http://old/a/b.png" demo_with_file) in
  log s' = (log demo_with_file ++ [GetMediaFile "http://old/a/b.png"])%list /\
  (files s' = files demo_with_file \/
   (RequestException = RequestException /\
    exists response w n,
      @http_send nat cut_platform (GetMediaFile "http://old/a/b.png")
                 (world demo_with_file) = (Some response, w) /\
      passes_status response /\
      files s' =
        (file_name_of "http://old/a/b.png", substring 0 n (text response))
        :: file_remove (file_name_of "http://old/a/b.png") (files demo_with_file))).
Proof.
  apply (@download_media_failure nat cut_platform "http://old/a/b.png" demo_with_file
           RequestException).
  vm_compute. reflexivity.
Defined.

Lemma upload_media_success_witness :
  exists content response w body,
    file_lookup "img.png" (files demo_with_file) = Some content /\
    http_send (PostUpload "http://new/api/upload" "Bearer key" "img.png" content)
              (world demo_with_file) = (Some response, w) /\
    passes_status response /\
    json response = Some body /\
    getitem0 body = Ok (VDict [("id", VInt 101)]) /\
    file_lookup "img.png"
      (files (snd (upload_media_to_strapi_4 (demo_config []) "img.png" demo_with_file)))
      = None /\
    snd (upload_media_to_strapi_4 (demo_config []) "img.png" demo_with_file) =
      mkState w
        (log demo_with_file ++
         [PostUpload "http://new/api/upload" "Bearer key" "img.png" content])
        (out demo_with_file) (file_remove "img.png" (files demo_with_file)).
Proof.
  apply (upload_media_success (demo_config []) "img.png" demo_with_file
           (VDict [("id", VInt 101)])
           (snd (upload_media_to_strapi_4 (demo_config []) "img.png" demo_with_file))).
  vm_compute. reflexivity.
Defined.

Lemma upload_media_refused_keeps_file_witness :
  exists s',
    @upload_media_to_strapi_4 nat full_disk_platform (demo_config []) "img.png"
                              demo_with_file = (Raise HTTPError, s') /\
    file_lookup "img.png" (files s') = Some "bytes" /\
    files s' = files demo_with_file.
Proof.
  apply (@upload_media_refused_keeps_file nat full_disk_platform (demo_config [])
           "img.png" demo_with_file "bytes"
           (mkResponse 413 "Payload Too Large" None) 0%nat).
  - reflexivity.
  - reflexivity.
  - unfold passes_status. simpl. discriminate.
Defined.

Lemma transfer_media_round_trip_witness :
  exists url response w,
    getitem demo_cover "url" = Ok (VStr url) /\
    http_send (GetMediaFile (urljoin (Some "http://old") url)) (world demo_start)
      = (Some response, w) /\
    log (snd (transfer_media (demo_config []) demo_cover demo_start)) =
      (log demo_start ++
       [GetMediaFile (urljoin (Some "http://old") url);
        PostUpload "http://new/api/upload" "Bearer key"
                   (file_name_of (urljoin (Some "http://old") url)) (text response)])%list /\
    file_lookup (file_name_of (urljoin (Some "http://old") url))
                (files (snd (transfer_media (demo_config []) demo_cover demo_start))) = None /\
    out (snd (transfer_media (demo_config []) demo_cover demo_start)) = out demo_start.
Proof.
  apply (transfer_media_round_trip (demo_config []) demo_cover demo_start (VInt 101)
           (snd (transfer_media (demo_config []) demo_cover demo_start))).
  vm_compute. reflexivity.
Defined.

Lemma media_pass_keeps_what_is_not_media_witness :
  dict_get demo_mixed_entry "tags" =
    Some (VList [VDict [("id", VInt 7)]; VDict [("name", VStr "x")]]).
Proof.
  apply (media_pass_keeps_what_is_not_media (demo_config []) demo_mixed_entry demo_start
           demo_mixed_entry demo_start "tags").
  - vm_compute. reflexivity.
  - reflexivity.
  - reflexivity.
Defined.

Lemma relationship_pass_keeps_what_is_no_reference_witness :
  dict_get demo_mixed_entry "tags" =
    Some (VList [VDict [("id", VInt 7)]; VDict [("name", VStr "x")]]).
Proof.
  apply (relationship_pass_keeps_what_is_no_reference (demo_config ["tags"])
           demo_mixed_entry demo_start demo_mixed_entry demo_start "tags").
  - vm_compute. reflexivity.
  - reflexivity.
  - reflexivity.
Defined.

Lemma transform_entry_keeps_field_names_witness :
  keys [("cover", VInt 101); ("gallery", VList [VInt 102; VInt 103])] =
  keys demo_media_entry.
Proof.
  apply (transform_entry_keeps_field_names (demo_config []) demo_media_entry demo_start
           _ (snd (transform_entry (demo_config []) demo_media_entry demo_start))).
  vm_compute. reflexivity.
Defined.

Lemma payload_field_names_witness :
  keys [("title", VStr "A"); ("old_id", VInt 5)] =
  filter (fun x => negb (String.eqb x "id") && negb (String.eqb x "created_at")
                   && negb (String.eqb x "updated_at"))
         (keys [("id", VInt 5); ("title", VStr "A"); ("created_at", VStr "2020")]
          ++ ["old_id"])%list.
Proof.
  apply (payload_field_names (demo_config [])
           [("id", VInt 5); ("title", VStr "A"); ("created_at", VStr "2020")]
           [("title", VStr "A"); ("old_id", VInt 5)] demo_start
           [("title", VStr "A"); ("old_id", VInt 5)] demo_start).
  - repeat constructor; simpl; intuition discriminate.
  - reflexivity.
  - reflexivity.
Defined.

Lemma transform_entry_media_field_witness :
  let s' := snd (transform_entry (demo_config []) demo_media_entry demo_start) in
  exists s1 s2 id,
    grows is_transform_request demo_start s1 /\
    transfer_media (demo_config []) demo_cover s1 = (Ok id, s2) /\
    grows is_transform_request s2 s' /\
    (is_scalar id = true ->
     dict_get [("cover", VInt 101); ("gallery", VList [VInt 102; VInt 103])] "cover"
       = Some id).
Proof.
  apply (transform_entry_media_field (demo_config []) demo_media_entry demo_start
           [("cover", VInt 101); ("gallery", VList [VInt 102; VInt 103])]
           (snd (transform_entry (demo_config []) demo_media_entry demo_start))
           "cover" [("url", VStr "/img.png")]).
  - repeat constructor; simpl; intuition discriminate.
  - reflexivity.
  - reflexivity.
  - vm_compute. reflexivity.
Defined.

Lemma transform_entry_relationship_field_witness :
  let cfg := demo_config ["author"] in
  let s' := snd (transform_entry cfg demo_related_entry demo_start) in
  exists s1 s2 R,
    grows is_transform_request demo_start s1 /\
    fetch_related_id_in_strapi_4 cfg "author" (VInt 9) s1 = (Ok R, s2) /\
    grows is_transform_request s2 s' /\
    dict_get [("author", VDict [("connect", VList [VDict [("id", VInt 42)]])]);
              ("editor", VDict [("id", VInt 7)]);
              ("tags", VList [VDict [("id", VInt 7)]; VDict [("id", VInt 9)]]);
              ("links", VList [])] "author" =
      Some (VDict [("connect", VList [VDict [("id", R)]])]).
Proof.
  apply (transform_entry_relationship_field (demo_config ["author"]) demo_related_entry
           demo_start _
           (snd (transform_entry (demo_config ["author"]) demo_related_entry demo_start))
           "author" [("id", VInt 9)] (VInt 9)).
  - repeat constructor; simpl; intuition discriminate.
  - reflexivity.
  - reflexivity.
  - reflexivity.
  - reflexivity.
  - reflexivity.
  - vm_compute. reflexivity.
Defined.

Lemma component_descent_runs_both_passes_witness :
  let cfg := demo_config [] in
  let entry' :=
    [("seo", VDict [("image", VInt 101); ("og", VDict [("picture", demo_cover)])]);
     ("blocks", VList [VDict [("photo", VInt 102)]; VDict [("text", VStr "t")]])] in
  (exists s1 d1 s2 d2 s3,
      handle_media_fields cfg [("image", demo_cover);
                               ("og", VDict [("picture", demo_cover)])] s1 = (Ok d1, s2) /\
      map_relationships cfg d1 s2 = (Ok d2, s3) /\
      dict_get entry' "seo" = Some (VDict d2)) /\
  (exists s1 items' s2,
      descended cfg [VDict [("photo", demo_cover)]; VDict [("text", VStr "t")]]
                s1 items' s2 /\
      dict_get entry' "blocks" = Some (VList items') /\
      List.length items' = 2%nat).
Proof.
  intros cfg entry'.
  assert (Hwf : wf_dict demo_component_entry)
    by (repeat constructor; simpl; intuition discriminate).
  assert (Hrun : handle_components cfg demo_component_entry "Bearer key" demo_start =
                 (Ok entry',
                  snd (handle_components cfg demo_component_entry "Bearer key" demo_start)))
    by (vm_compute; reflexivity).
  split.
  - refine (proj1 (component_descent_runs_both_passes cfg demo_component_entry
                     "Bearer key" demo_start entry' _ "seo" _ Hwf eq_refl Hrun)
                  _ eq_refl).
  - refine (proj2 (component_descent_runs_both_passes cfg demo_component_entry
                     "Bearer key" demo_start entry' _ "blocks" _ Hwf eq_refl Hrun)
                  _ eq_refl eq_refl).
Defined.

Lemma descent_is_one_level_deep_witness :
  exists d',
    dict_get [("seo", VDict [("image", VInt 101); ("og", VDict [("picture", demo_cover)])]);
              ("blocks", VList [VDict [("photo", VInt 102)]; VDict [("text", VStr "t")]])]
             "seo" = Some (VDict d') /\
    dict_get d' "og" = Some (VDict [("picture", demo_cover)]).
Proof.
  apply (descent_is_one_level_deep (demo_config []) demo_component_entry demo_start _
           (snd (transform_entry (demo_config []) demo_component_entry demo_start))
           "seo" [("image", demo_cover); ("og", VDict [("picture", demo_cover)])] "og").
  - repeat constructor; simpl; intuition discriminate.
  - reflexivity.
  - reflexivity.
  - left. reflexivity.
  - reflexivity.
  - reflexivity.
  - left. reflexivity.
  - vm_compute. reflexivity.
Defined.

Lemma run_sends_login_then_pages_then_creations_witness :
  exists l_pages l_create,
    log (snd (main (demo_config []) 5 demo_start)) =
      (log demo_start ++
       PostLogin "http://old/admin/login" (VStr "me@example.org") (VStr "secret")
       :: l_pages ++ l_create)%list /\
    forallb is_page_request l_pages = true /\
    forallb is_create_stage_request l_create = true.
Proof.
  apply (run_sends_login_then_pages_then_creations (demo_config []) 5%nat demo_start
           (Ok tt) (snd (main (demo_config []) 5 demo_start))).
  vm_compute. reflexivity.
Defined.

Lemma run_stops_at_a_refused_login_witness :
  @main unit down_platform (demo_config []) 5 down_start =
    (Raise HTTPError,
     mkState tt
       [PostLogin "http://old/admin/login" (VStr "me@example.org") (VStr "secret")]
       [MsgAuthenticating] [("keep", "me")]).
Proof.
  apply (@run_stops_at_a_refused_login unit down_platform (demo_config []) 5%nat
           down_start (mkResponse 500 "Internal Server Error" None) tt).
  - reflexivity.
  - unfold passes_status. simpl. discriminate.
Defined.

Lemma broken_source_admits : @source_admits nat broken_source_platform (demo_config []).
Proof. intros s. eexists. eexists. reflexivity. Qed.

Lemma run_stops_at_a_refused_page_witness :
  exists s' l,
    @main nat broken_source_platform (demo_config []) 5 demo_start = (Raise HTTPError, s') /\
    log s' = (log demo_start ++ l)%list /\
    page_requests l = 1%nat /\
    creation_requests l = 0%nat.
Proof.
  apply (@run_stops_at_a_refused_page nat broken_source_platform (demo_config []) 5%nat
           demo_start broken_source_admits).
  - intros url token limit start w. eexists. eexists.
    split; [reflexivity|]. unfold passes_status. simpl. discriminate.
  - lia.
Defined.

Lemma fetch_never_ends_on_an_endless_source_witness :
  exists s',
    @fetch_entries_from_strapi_3 unit endless_platform (demo_config []) 7
      (Some "articles") (VStr "jwt") (mkState tt [] [] []) = (OutOfFuel, s') /\
    page_requests (log s') = (page_requests [] + 7)%nat.
Proof.
  apply (@fetch_never_ends_on_an_endless_source unit endless_platform (demo_config [])
           (Some "articles") (VStr "jwt")).
  intros url tok limit start w. do 4 eexists. repeat split.
Defined.

Lemma transform_failure_aborts_the_stage_witness :
  let cfg := demo_config ["author"] in
  let s1 := mkState 0%nat [GetRelated "http://new/api/authors" "Bearer key" (VInt 3)]
                    [] [] in
  create_entries_in_strapi_4 cfg (Some "articles")
    [VDict [("id", VInt 5); ("author", VDict [("id", VInt 3)])]; VDict [("id", VInt 6)]]
    demo_start = (Raise (ValueError (VInt 3)), s1) /\
  exists l, log s1 = (log demo_start ++ l)%list /\ creation_requests l = 0%nat.
Proof.
  apply (transform_failure_aborts_the_stage (demo_config ["author"]) (Some "articles")
           (VDict [("id", VInt 5); ("author", VDict [("id", VInt 3)])])
           [VDict [("id", VInt 6)]] demo_start
           [("author", VDict [("id", VInt 3)]); ("old_id", VInt 5)]).
  - reflexivity.
  - reflexivity.
Defined.

Lemma relationship_list_of_non_mappings_raises_witness :
  map_relationships_field (demo_config ["tags"]) demo_mixed_entry "tags"
    (VList [VStr "video"; VDict [("id", VInt 7)]]) demo_start =
  (Raise TypeError, demo_start).
Proof.
  apply (relationship_list_of_non_mappings_raises (demo_config ["tags"]) demo_mixed_entry
           "tags" (VStr "video") [VDict [("id", VInt 7)]] demo_start).
  - reflexivity.
  - reflexivity.
  - simpl. discriminate.
Defined.

Lemma relationship_fields_are_the_comma_pieces_witness :
  ["author"; " tags"; ""] = relationship_fields_of_env (Some "author, tags,") /\
  str_in "a,b" (relationship_fields_of_env (Some "author, tags,")) = false.
Proof.
  destruct (relationship_fields_are_the_comma_pieces (Some "author, tags,"))
    as (_ & _ & _ & Hunique & Hcomma).
  split.
  - apply Hunique.
    + discriminate.
    + repeat constructor.
    + reflexivity.
  - apply Hcomma. reflexivity.
Defined.
